(** * rUBot sign detection and reactive behaviour

    A shallow embedding of [keras_takePictures_detect_signs_move2.py]: the two
    ROS nodes of the script ([ImageClassifierNode] and [SignalBehaviorNode]),
    their callbacks and the 10 Hz control loop.

    Every callback is a computation in a small monad that threads the node's
    attributes, records the externally visible actions it performs (log calls,
    publications, lock operations, accesses to the shared command cell) and
    may raise a Python exception.  ROS itself (message delivery, the model,
    OpenCV, numpy) is outside the script: the deliveries are the events of a
    step machine and the library calls are the fields of a [Classifier]. *)

From Stdlib Require Import String Ascii NArith ZArith List Bool Lia.
From Stdlib Require Import Floats.PrimFloat.
Import ListNotations.

Local Open Scope string_scope.
Local Open Scope Z_scope.
Local Open Scope list_scope.

(* Decimal literals denote the nearest binary64 value, as in Python. *)
Set Warnings "-inexact-float".

(** ** Messages *)

(** [geometry_msgs/Vector3] and [geometry_msgs/Twist]; every field of a fresh
    [Twist()] is [0.0]. *)
Module Vector3.
Record t : Set := make { x : float; y : float; z : float }.
Definition zero : t := make 0%float 0%float 0%float.
Definition set_x (v : float) (p : t) : t := make v (y p) (z p).
Definition set_z (v : float) (p : t) : t := make (x p) (y p) v.
End Vector3.

Record Twist : Set := mkTwist { linear : Vector3.t; angular : Vector3.t }.

Definition Twist_new : Twist := mkTwist Vector3.zero Vector3.zero.

(** [twist.linear.x = v] and [twist.angular.z = v]. *)
Definition set_linear_x (v : float) (t : Twist) : Twist :=
  mkTwist (Vector3.set_x v (linear t)) (angular t).
Definition set_angular_z (v : float) (t : Twist) : Twist :=
  mkTwist (linear t) (Vector3.set_z v (angular t)).

(** The part of [nav_msgs/Odometry] the script reads:
    [msg.pose.pose.position.x] and [msg.pose.pose.position.y]. *)
Record Odometry : Set := mkOdometry { position_x : float; position_y : float }.

(** ** Python exceptions

    The handlers of the script tell three classes apart: [CvBridgeError]
    (a subclass of [Exception]), any other instance of [Exception], and what
    lies outside [Exception] ([KeyboardInterrupt], [SystemExit]), which no
    [except Exception] clause catches. *)
Inductive exn : Set :=
| CvBridgeError (what : string)
| PyException (class_name what : string)
| PyBaseException (class_name : string).

Definition isinstance_CvBridgeError (e : exn) : bool :=
  match e with CvBridgeError _ => true | _ => false end.

Definition isinstance_Exception (e : exn) : bool :=
  match e with PyBaseException _ => false | _ => true end.

(** ** Actions *)

(** The texts of the log calls, one constructor per format string, with the
    values the f-string interpolates. *)
Inductive log_text : Set :=
| TxtCaptureState (activated : bool)
| TxtImage (number : Z) (class_name : string) (confidence : float)
| TxtCvBridgeError (e : exn)
| TxtProcessingError (e : exn)
| TxtSignalDetected (command : string)
| TxtStop (command : string)
| TxtTurnLeft
| TxtTurnRight
| TxtForward
| TxtUnknownSignal (command : string).

Inductive action : Set :=
| LogInfo (text : log_text)                       (* rospy.loginfo *)
| LogErr (text : log_text)                        (* rospy.logerr *)
| LogInfoThrottle (period : float) (text : log_text) (* rospy.loginfo_throttle *)
| PublishClass (data : string)                    (* class_pub.publish *)
| PublishCmdVel (twist : Twist)                   (* cmd_vel_pub.publish *)
| LockAcquire                                     (* entering [with self.command_lock] *)
| LockRelease                                     (* leaving it *)
| LoadCommand (value : string)                    (* reading self.current_command *)
| StoreCommand (value : string)                   (* assigning self.current_command *)
| IsShutdown (answer : bool)                      (* rospy.is_shutdown() *)
| RateSleep                                       (* rate.sleep() *)
| Uncaught (e : exn).                             (* an exception leaving a callback *)

(** ** The monad of callbacks *)

Inductive outcome (A : Type) : Type :=
| Normal (a : A)
| Raised (e : exn).
Arguments Normal {A} a.
Arguments Raised {A} e.

Record result (St A : Type) : Type :=
  mkResult { actions : list action; final : St; value : outcome A }.
Arguments mkResult {St A} _ _ _.
Arguments actions {St A} _.
Arguments final {St A} _.
Arguments value {St A} _.

Definition M (St A : Type) : Type := St -> result St A.

Section Monad.
Context {St : Type}.

Definition ret {A} (a : A) : M St A := fun s => mkResult [] s (Normal a).

Definition raise {A} (e : exn) : M St A := fun s => mkResult [] s (Raised e).

Definition bind {A B} (m : M St A) (k : A -> M St B) : M St B := fun s =>
  match m s with
  | mkResult tr s1 (Normal a) =>
      match k a s1 with
      | mkResult tr' s2 o => mkResult (tr ++ tr') s2 o
      end
  | mkResult tr s1 (Raised e) => mkResult tr s1 (Raised e)
  end.

Definition emit (a : action) : M St unit := fun s => mkResult [a] s (Normal tt).

Definition gets {A} (f : St -> A) : M St A := fun s => mkResult [] s (Normal (f s)).

Definition modify (f : St -> St) : M St unit := fun s => mkResult [] (f s) (Normal tt).

(** A value computed by library code, which either returns or raises. *)
Definition lift {A} (o : outcome A) : M St A := fun s => mkResult [] s o.

(** [try: body  except C1 as e: h1  except C2 as e: h2 ...]: the first clause
    whose class the exception is an instance of handles it; with no such
    clause the exception goes on. *)
Fixpoint dispatch {A} (clauses : list ((exn -> bool) * (exn -> M St A)))
  (e : exn) : M St A :=
  match clauses with
  | [] => raise e
  | (isinstance, handler) :: rest =>
      if isinstance e then handler e else dispatch rest e
  end.

Definition try_except {A} (body : M St A)
  (clauses : list ((exn -> bool) * (exn -> M St A))) : M St A := fun s =>
  match body s with
  | mkResult tr s1 (Normal a) => mkResult tr s1 (Normal a)
  | mkResult tr s1 (Raised e) =>
      match dispatch clauses e s1 with
      | mkResult tr' s2 o => mkResult (tr ++ tr') s2 o
      end
  end.

(** [with self.command_lock: body]: the lock is released however the body
    ends. *)
Definition with_command_lock {A} (body : M St A) : M St A := fun s =>
  match body s with
  | mkResult tr s1 o => mkResult (LockAcquire :: tr ++ [LockRelease]) s1 o
  end.

End Monad.

Declare Scope py_scope.
Delimit Scope py_scope with py.
Notation "x <- m ;; k" := (bind m (fun x => k))
  (at level 61, m at next level, right associativity) : py_scope.
Notation "m ;; k" := (bind m (fun _ => k))
  (at level 61, right associativity) : py_scope.
Local Open Scope py_scope.

(** ** Python data operations *)

(** [l[i]] on a list: negative indices count from the end, anything out of
    range raises [IndexError]. *)
Definition py_index {A} (l : list A) (i : Z) : outcome A :=
  let n := Z.of_nat (length l) in
  let j := if i <? 0 then i + n else i in
  if (0 <=? j) && (j <? n) then
    match nth_error l (Z.to_nat j) with
    | Some a => Normal a
    | None => Raised (PyException "IndexError" "list index out of range")
    end
  else Raised (PyException "IndexError" "list index out of range").

(** [a % b] on integers: the sign follows the divisor, as [Z.modulo] does;
    a zero divisor raises. *)
Definition py_mod (a b : Z) : outcome Z :=
  if b =? 0 then Raised (PyException "ZeroDivisionError" "integer division or modulo by zero")
  else Normal (a mod b).

(** [cmd in [s1, s2, ...]] on strings. *)
Definition py_in (s : string) (l : list string) : bool :=
  existsb (String.eqb s) l.

(** ** SignalBehaviorNode *)

(** The attributes the callbacks read and write.  [command_lock],
    [cmd_vel_pub] and [control_thread] are handles on ROS and threading
    objects; what is done through them shows as actions. *)
Record SignalBehaviorNode : Set := mkSignalBehaviorNode {
  robot_x : float;
  robot_y : float;
  current_command : string
}.

Definition set_robot_x (v : float) (n : SignalBehaviorNode) : SignalBehaviorNode :=
  mkSignalBehaviorNode v (robot_y n) (current_command n).
Definition set_robot_y (v : float) (n : SignalBehaviorNode) : SignalBehaviorNode :=
  mkSignalBehaviorNode (robot_x n) v (current_command n).
Definition set_current_command (v : string) (n : SignalBehaviorNode) : SignalBehaviorNode :=
  mkSignalBehaviorNode (robot_x n) (robot_y n) v.

(** The attribute values [__init__] assigns before it starts the control
    thread. *)
Definition SignalBehaviorNode_init : SignalBehaviorNode :=
  mkSignalBehaviorNode 0%float 0%float "Nothing".

(** Accesses to the shared cell [self.current_command] are recorded. *)
Definition store_command (v : string) : M SignalBehaviorNode unit :=
  emit (StoreCommand v) ;; modify (set_current_command v).

Definition load_command : M SignalBehaviorNode string :=
  v <- gets current_command ;; emit (LoadCommand v) ;; ret v.

Definition odom_callback (msg : Odometry) : M SignalBehaviorNode unit :=
  modify (set_robot_x (position_x msg)) ;;
  modify (set_robot_y (position_y msg)).

(** The f-string of the log call reads [self.current_command] again, inside
    the [with] block. *)
Definition class_callback (data : string) : M SignalBehaviorNode unit :=
  with_command_lock (
    store_command data ;;
    shown <- load_command ;;
    emit (LogInfo (TxtSignalDetected shown))).

Inductive loop_status : Set := Continue | Exit.

(** What ROS answers during one turn of the loop: the value of
    [rospy.is_shutdown()], and whether [cmd_vel_pub.publish(twist)] and
    [rate.sleep()] return or raise ([publish] raises on a closed or
    unregistered topic, [sleep] when ROS is shut down during the sleep or
    ROS time moves backwards). *)
Record turn_io : Type := mkTurnIo {
  shutdown_answer : bool;
  publish_outcome : outcome unit;
  sleep_outcome : outcome unit
}.

(** One evaluation of [while not rospy.is_shutdown()] and, when the answer
    is [False], one pass through the body of [motion_loop].  The body has no
    [try]: an exception of [publish] or [sleep] leaves the loop.  A call
    that raises has sent no message, or has not slept to the tick. *)
Definition motion_loop_turn_io (io : turn_io) : M SignalBehaviorNode loop_status :=
  emit (IsShutdown (shutdown_answer io)) ;;
  if shutdown_answer io then ret Exit
  else
    let twist := Twist_new in
    cmd <- with_command_lock load_command ;;
    twist <-
      (if py_in cmd ["Stop"; "Give_Way"] then
         let twist := set_linear_x 0.0%float twist in
         let twist := set_angular_z 0.0%float twist in
         emit (LogInfoThrottle 2.0%float (TxtStop cmd)) ;; ret twist
       else if String.eqb cmd "Turn_Left" then
         let twist := set_linear_x 0.0%float twist in
         let twist := set_angular_z 0.5%float twist in
         emit (LogInfoThrottle 2.0%float TxtTurnLeft) ;; ret twist
       else if String.eqb cmd "Turn_Right" then
         let twist := set_linear_x 0.0%float twist in
         let twist := set_angular_z (-0.5)%float twist in
         emit (LogInfoThrottle 2.0%float TxtTurnRight) ;; ret twist
       else if String.eqb cmd "Nothing" then
         let twist := set_linear_x 0.2%float twist in
         let twist := set_angular_z 0.0%float twist in
         emit (LogInfoThrottle 2.0%float TxtForward) ;; ret twist
       else
         let twist := set_linear_x 0.0%float twist in
         let twist := set_angular_z 0.0%float twist in
         emit (LogInfoThrottle 2.0%float (TxtUnknownSignal cmd)) ;; ret twist) ;;
    lift (publish_outcome io) ;;
    emit (PublishCmdVel twist) ;;
    lift (sleep_outcome io) ;;
    emit RateSleep ;;
    ret Continue.

(** [motion_loop] run against what ROS answers turn after turn: it goes
    round until an answer of [is_shutdown] is [True] or a call raises; with
    the answers used up before that it is still running. *)
Fixpoint motion_loop_io (turns : list turn_io) : M SignalBehaviorNode loop_status :=
  match turns with
  | [] => ret Continue
  | io :: later =>
      status <- motion_loop_turn_io io ;;
      match status with
      | Exit => ret Exit
      | Continue => motion_loop_io later
      end
  end.

(** A turn in which [publish] and [sleep] return. *)
Definition quiet_turn (shutdown : bool) : turn_io :=
  mkTurnIo shutdown (Normal tt) (Normal tt).

Definition motion_loop_turn (shutdown : bool) : M SignalBehaviorNode loop_status :=
  motion_loop_turn_io (quiet_turn shutdown).

(** [motion_loop] while [publish] and [sleep] return, run against the
    successive answers of [rospy.is_shutdown()]: it goes round until an
    answer is [True]; with the answers used up and none [True] it is still
    running. *)
Fixpoint motion_loop (answers : list bool) : M SignalBehaviorNode loop_status :=
  match answers with
  | [] => ret Continue
  | shutdown :: later =>
      status <- motion_loop_turn shutdown ;;
      match status with
      | Exit => ret Exit
      | Continue => motion_loop later
      end
  end.

(** ** ImageClassifierNode *)

(** What the script calls in cv_bridge, OpenCV, numpy and Keras.  Each call
    returns or raises. *)
Record Classifier : Type := mkClassifier {
  ImageMsg : Type;                                (* sensor_msgs/Image *)
  CvImage : Type;
  Batch : Type;
  Predictions : Type;
  imgmsg_to_cv2 : ImageMsg -> outcome CvImage;    (* bridge.imgmsg_to_cv2(msg, "bgr8") *)
  resize : CvImage -> Z * Z -> outcome CvImage;   (* cv2.resize(cv_image, input_shape) *)
  to_batch : CvImage -> outcome Batch;            (* astype(float32) / 255.0, expand_dims *)
  predict : Batch -> outcome Predictions;         (* model.predict(img) *)
  argmax : Predictions -> outcome Z;              (* np.argmax(predictions) *)
  item : Predictions -> Z -> outcome float        (* predictions[0][class_index] *)
}.

(** The attributes of the node other than the handles ([model], [bridge],
    [image_sub], [class_pub]) and the directory path. *)
Record ImageClassifierNode : Set := mkImageClassifierNode {
  labels : list string;
  input_shape : Z * Z;
  capture_enabled : bool;
  last_capture_time : float;
  capture_interval : float;
  image_count : Z;
  debug_interval : Z
}.

Definition set_capture_enabled (v : bool) (n : ImageClassifierNode) : ImageClassifierNode :=
  mkImageClassifierNode (labels n) (input_shape n) v (last_capture_time n)
    (capture_interval n) (image_count n) (debug_interval n).
Definition set_image_count (v : Z) (n : ImageClassifierNode) : ImageClassifierNode :=
  mkImageClassifierNode (labels n) (input_shape n) (capture_enabled n)
    (last_capture_time n) (capture_interval n) v (debug_interval n).

(** [__init__], given the label file's names, the model's input shape and the
    clock's reading. *)
Definition ImageClassifierNode_init (loaded_labels : list string) (shape : Z * Z)
  (now : float) : ImageClassifierNode :=
  mkImageClassifierNode loaded_labels shape true now 1.0%float 0 10.

Definition toggle_callback (data : bool) : M ImageClassifierNode unit :=
  modify (set_capture_enabled data) ;;
  enabled <- gets capture_enabled ;;
  emit (LogInfo (TxtCaptureState enabled)).

Section ImageCallback.
Variable X : Classifier.

Definition image_callback (msg : ImageMsg X) : M ImageClassifierNode unit :=
  modify (fun n => set_image_count (image_count n + 1) n) ;;
  try_except
    (cv_image <- lift (imgmsg_to_cv2 X msg) ;;
     shape <- gets input_shape ;;
     resized <- lift (resize X cv_image shape) ;;
     img <- lift (to_batch X resized) ;;
     predictions <- lift (predict X img) ;;
     class_index <- lift (argmax X predictions) ;;
     names <- gets labels ;;
     class_name <- lift (py_index names class_index) ;;
     confidence <- lift (item X predictions class_index) ;;
     count <- gets image_count ;;
     interval <- gets debug_interval ;;
     remainder <- lift (py_mod count interval) ;;
     (if remainder =? 0
      then emit (LogInfo (TxtImage count class_name confidence))
      else ret tt) ;;
     emit (PublishClass class_name))
    [ (isinstance_CvBridgeError, fun e => emit (LogErr (TxtCvBridgeError e)));
      (isinstance_Exception, fun e => emit (LogErr (TxtProcessingError e))) ].

(** ** The two nodes under ROS

    ROS delivers messages to the callbacks and the control thread goes round
    its loop; an event is one such delivery or one turn of the loop.  The
    control thread reads the shared cell under the lock and works on its
    local copy afterwards, so a turn is taken as one step at its read.  The
    turns of a run are turns in which [publish] and [sleep] return;
    [motion_loop_io] has the others. *)
Inductive event : Type :=
| ImageIn (msg : ImageMsg X)          (* /usb_cam/image_raw *)
| CaptureToggleIn (data : bool)       (* /capture_toggle *)
| OdomIn (msg : Odometry)             (* /odom *)
| PredictedClassIn (data : string)    (* /predicted_class *)
| LoopTurn (shutdown : bool).         (* the control thread, with is_shutdown()'s answer *)

Record System : Type := mkSystem {
  classifier_node : ImageClassifierNode;
  behavior_node : SignalBehaviorNode;
  control_thread_alive : bool
}.

(** The state after both constructors have run in [__main__]. *)
Definition System_init (loaded_labels : list string) (shape : Z * Z) (now : float) : System :=
  mkSystem (ImageClassifierNode_init loaded_labels shape now) SignalBehaviorNode_init true.

Definition escaped {A} (o : outcome A) : list action :=
  match o with Normal _ => [] | Raised e => [Uncaught e] end.

Definition step (sys : System) (ev : event) : System * list action :=
  match ev with
  | ImageIn msg =>
      let r := image_callback msg (classifier_node sys) in
      (mkSystem (final r) (behavior_node sys) (control_thread_alive sys),
       actions r ++ escaped (value r))
  | CaptureToggleIn data =>
      let r := toggle_callback data (classifier_node sys) in
      (mkSystem (final r) (behavior_node sys) (control_thread_alive sys),
       actions r ++ escaped (value r))
  | OdomIn msg =>
      let r := odom_callback msg (behavior_node sys) in
      (mkSystem (classifier_node sys) (final r) (control_thread_alive sys),
       actions r ++ escaped (value r))
  | PredictedClassIn data =>
      let r := class_callback data (behavior_node sys) in
      (mkSystem (classifier_node sys) (final r) (control_thread_alive sys),
       actions r ++ escaped (value r))
  | LoopTurn shutdown =>
      if control_thread_alive sys then
        let r := motion_loop_turn shutdown (behavior_node sys) in
        (mkSystem (classifier_node sys) (final r)
           (match value r with Normal Continue => true | _ => false end),
         actions r ++ escaped (value r))
      else (sys, [])
  end.

Fixpoint run (sys : System) (evs : list event) : System * list action :=
  match evs with
  | [] => (sys, [])
  | ev :: later =>
      let (sys1, out1) := step sys ev in
      let (sys2, out2) := run sys1 later in
      (sys2, out1 ++ out2)
  end.

End ImageCallback.
Arguments ImageIn {X} msg.
Arguments CaptureToggleIn {X} data.
Arguments OdomIn {X} msg.
Arguments PredictedClassIn {X} data.
Arguments LoopTurn {X} shutdown.

(** ** Observations on a trace of actions *)

(** The labels published on [/predicted_class], in order. *)
Fixpoint label_stream (tr : list action) : list string :=
  match tr with
  | [] => []
  | PublishClass data :: rest => data :: label_stream rest
  | _ :: rest => label_stream rest
  end.

(** The messages published on [/cmd_vel], in order. *)
Fixpoint cmd_vel_stream (tr : list action) : list Twist :=
  match tr with
  | [] => []
  | PublishCmdVel twist :: rest => twist :: cmd_vel_stream rest
  | _ :: rest => cmd_vel_stream rest
  end.

(** The pair [(linear_x, angular_z)] of a message. *)
Definition velocity_command (t : Twist) : float * float :=
  (Vector3.x (linear t), Vector3.z (angular t)).

Definition velocity_commands (tr : list action) : list (float * float) :=
  map velocity_command (cmd_vel_stream tr).

(** * Auxiliary definitions for the statements *)

Ltac run_monad :=
  cbv beta iota zeta delta
    [bind emit ret raise gets modify lift try_except dispatch with_command_lock
     load_command store_command value final actions app].

(** The log text and the message of the branch of [motion_loop] taken on
    [cmd], read off the body of the loop ([motion_loop_turn_running] shows
    they are what a turn logs and publishes). *)
Definition turn_text (cmd : string) : log_text :=
  if py_in cmd ["Stop"; "Give_Way"] then TxtStop cmd
  else if String.eqb cmd "Turn_Left" then TxtTurnLeft
  else if String.eqb cmd "Turn_Right" then TxtTurnRight
  else if String.eqb cmd "Nothing" then TxtForward
  else TxtUnknownSignal cmd.

Definition turn_twist (cmd : string) : Twist :=
  if py_in cmd ["Stop"; "Give_Way"] then set_angular_z 0.0%float (set_linear_x 0.0%float Twist_new)
  else if String.eqb cmd "Turn_Left" then set_angular_z 0.5%float (set_linear_x 0.0%float Twist_new)
  else if String.eqb cmd "Turn_Right" then set_angular_z (-0.5)%float (set_linear_x 0.0%float Twist_new)
  else if String.eqb cmd "Nothing" then set_angular_z 0.0%float (set_linear_x 0.2%float Twist_new)
  else set_angular_z 0.0%float (set_linear_x 0.0%float Twist_new).

Definition turn_actions (cmd : string) : list action :=
  [IsShutdown false; LockAcquire; LoadCommand cmd; LockRelease;
   LogInfoThrottle 2.0%float (turn_text cmd); PublishCmdVel (turn_twist cmd); RateSleep].

(** The library calls of [image_callback] chained: the class name and the
    confidence of a frame, or the exception of the first call that raises. *)
Definition frame_result (X : Classifier) (names : list string) (shape : Z * Z)
  (msg : ImageMsg X) : outcome (string * float) :=
  match imgmsg_to_cv2 X msg with
  | Raised e => Raised e
  | Normal cv_image =>
  match resize X cv_image shape with
  | Raised e => Raised e
  | Normal resized =>
  match to_batch X resized with
  | Raised e => Raised e
  | Normal img =>
  match predict X img with
  | Raised e => Raised e
  | Normal predictions =>
  match argmax X predictions with
  | Raised e => Raised e
  | Normal class_index =>
  match py_index names class_index with
  | Raised e => Raised e
  | Normal class_name =>
  match item X predictions class_index with
  | Raised e => Raised e
  | Normal confidence => Normal (class_name, confidence)
  end end end end end end end.

(** What the two [except] clauses of [image_callback] do with [e]. *)
Definition handled (e : exn) (node : ImageClassifierNode) : result ImageClassifierNode unit :=
  if isinstance_CvBridgeError e then mkResult [LogErr (TxtCvBridgeError e)] node (Normal tt)
  else if isinstance_Exception e then mkResult [LogErr (TxtProcessingError e)] node (Normal tt)
  else mkResult [] node (Raised e).

(** Decoding fails: [imgmsg_to_cv2] raises. *)
Definition decode_fails (X : Classifier) (msg : ImageMsg X) (e : exn) : Prop :=
  imgmsg_to_cv2 X msg = Raised e.

(** The classifier fails: the frame is decoded and prepared, and
    [model.predict] raises. *)
Definition classify_fails (X : Classifier) (node : ImageClassifierNode)
  (msg : ImageMsg X) (e : exn) : Prop :=
  exists cv_image resized img,
    imgmsg_to_cv2 X msg = Normal cv_image /\
    resize X cv_image (input_shape node) = Normal resized /\
    to_batch X resized = Normal img /\
    predict X img = Raised e.

(** *** Events by kind *)

Definition is_toggle {X} (ev : event X) : bool :=
  match ev with CaptureToggleIn _ => true | _ => false end.
Definition is_odom {X} (ev : event X) : bool :=
  match ev with OdomIn _ => true | _ => false end.
Definition is_label_update {X} (ev : event X) : bool :=
  match ev with PredictedClassIn _ => true | _ => false end.
Definition is_frame {X} (ev : event X) : bool :=
  match ev with ImageIn _ => true | _ => false end.
Definition is_shutdown_turn {X} (ev : event X) : bool :=
  match ev with LoopTurn true => true | _ => false end.

(** A run with the events of one kind taken out. *)
Definition without {X} (kind : event X -> bool) (evs : list (event X)) : list (event X) :=
  filter (fun ev => negb (kind ev)) evs.

(** The number of frames delivered. *)
Definition frames_received {X} (evs : list (event X)) : Z :=
  Z.of_nat (length (filter is_frame evs)).

(** *** What the published streams depend on *)

(** The attributes that label publication and the loop body read:
    the label names, the input shape, the debug interval, the command cell,
    and whether the control thread is running. *)
Definition control_view (sys : System) : list string * (Z * Z) * Z * string * bool :=
  (labels (classifier_node sys), input_shape (classifier_node sys),
   debug_interval (classifier_node sys), current_command (behavior_node sys),
   control_thread_alive sys).

(** The two published streams of a trace. *)
Definition published (tr : list action) : list string * list Twist :=
  (label_stream tr, cmd_vel_stream tr).

(** *** The lock *)

(** The actions of a trace performed between [LockAcquire] and the next
    [LockRelease]; [held] says whether the lock is held at the start. *)
Fixpoint under_lock (held : bool) (tr : list action) : list action :=
  match tr with
  | [] => []
  | LockAcquire :: rest => under_lock true rest
  | LockRelease :: rest => under_lock false rest
  | a :: rest => if held then a :: under_lock held rest else under_lock held rest
  end.

(** Logging, publishing, sleeping and asking ROS are I/O; accesses to the
    command cell are not. *)
Definition is_io (a : action) : bool :=
  match a with
  | LogInfo _ | LogErr _ | LogInfoThrottle _ _ => true
  | PublishClass _ | PublishCmdVel _ => true
  | IsShutdown _ | RateSleep => true
  | LockAcquire | LockRelease | LoadCommand _ | StoreCommand _ | Uncaught _ => false
  end.

Definition is_log (a : action) : bool :=
  match a with
  | LogInfo _ | LogErr _ | LogInfoThrottle _ _ => true
  | _ => false
  end.

(** No I/O is done while the lock is held. *)
Definition lock_free_of_io (tr : list action) : Prop :=
  forallb (fun a => negb (is_io a)) (under_lock false tr) = true.

(** *** Counting actions *)

Definition is_load (a : action) : bool :=
  match a with LoadCommand _ => true | _ => false end.
Definition is_publish_cmd_vel (a : action) : bool :=
  match a with PublishCmdVel _ => true | _ => false end.
Definition is_shutdown_check (a : action) : bool :=
  match a with IsShutdown _ => true | _ => false end.
Definition is_sleep (a : action) : bool :=
  match a with RateSleep => true | _ => false end.
Definition is_uncaught (a : action) : bool :=
  match a with Uncaught _ => true | _ => false end.

Definition count (p : action -> bool) (tr : list action) : nat :=
  length (filter p tr).

(** The turns [motion_loop] takes through its body: the answers [False]
    before the first [True]. *)
Fixpoint turns_taken (answers : list bool) : nat :=
  match answers with
  | false :: later => S (turns_taken later)
  | _ => O
  end.

(** The exception that ends a turn, if [publish] or [sleep] is called in it
    and raises. *)
Definition turn_raises (io : turn_io) : option exn :=
  if shutdown_answer io then None
  else match publish_outcome io with
       | Raised e => Some e
       | Normal _ =>
           match sleep_outcome io with
           | Raised e => Some e
           | Normal _ => None
           end
       end.

(** How the loop stands after the turns: ended by the first check that
    answers [True], ended by the first call that raises, or still going. *)
Fixpoint loop_end (turns : list turn_io) : outcome loop_status :=
  match turns with
  | [] => Normal Continue
  | io :: later =>
      if shutdown_answer io then Normal Exit
      else match turn_raises io with
           | Some e => Raised e
           | None => loop_end later
           end
  end.

(** The turns the loop starts: up to and with the one that ends it. *)
Fixpoint turns_started (turns : list turn_io) : nat :=
  match turns with
  | [] => O
  | io :: later =>
      if shutdown_answer io then 1%nat
      else match turn_raises io with
           | Some _ => 1%nat
           | None => S (turns_started later)
           end
  end.

(** *** A classifier to run the model on

    Frame [0] cannot be decoded, frame [1] makes the model raise, and a
    frame [k + 2] is classified as class [k] with confidence [1.0]. *)
Definition demo_classifier : Classifier :=
  mkClassifier nat nat nat Z
    (fun msg => match msg with
                | O => Raised (CvBridgeError "unsupported encoding")
                | _ => Normal msg
                end)
    (fun cv_image _ => Normal cv_image)
    (fun resized => Normal resized)
    (fun img => match img with
                | 1%nat => Raised (PyException "ValueError" "bad input shape")
                | _ => Normal (Z.of_nat img - 2)
                end)
    (fun predictions => Normal predictions)
    (fun _ _ => Normal 1.0%float).

(** The delivery of frame [k] to it. *)
Definition frame (k : nat) : event demo_classifier := @ImageIn demo_classifier k.

Definition demo_labels : list string :=
  ["Stop"; "Give_Way"; "Turn_Left"; "Turn_Right"; "Nothing"].

Definition demo_system : System :=
  System_init demo_labels (224, 224) 0.0%float.

(** * The label file *)

(** A string is read as a sequence of characters with code points below
    256, an [ascii] being the code point.  [str.isspace] on such a
    character: the controls 9 to 13 and 28 to 31, the space, NEL (133) and
    the no-break space (160). *)
Definition py_isspace (c : ascii) : bool :=
  let n := N_of_ascii c in
  (((9 <=? n) && (n <=? 13)) || ((28 <=? n) && (n <=? 32)) || (n =? 133) || (n =? 160))%N.

Definition newline : string := String "010"%char EmptyString.

Fixpoint py_lstrip (s : string) : string :=
  match s with
  | EmptyString => EmptyString
  | String c rest => if py_isspace c then py_lstrip rest else s
  end.

Fixpoint py_rstrip (s : string) : string :=
  match s with
  | EmptyString => EmptyString
  | String c rest =>
      match py_rstrip rest with
      | EmptyString => if py_isspace c then EmptyString else String c EmptyString
      | kept => String c kept
      end
  end.

(** [s.strip()]. *)
Definition py_strip (s : string) : string := py_rstrip (py_lstrip s).

(** The text before and after the first space of [s], if it has one. *)
Fixpoint py_partition_space (s : string) : option (string * string) :=
  match s with
  | EmptyString => None
  | String c rest =>
      if Ascii.eqb c " "%char then Some (EmptyString, rest)
      else match py_partition_space rest with
           | Some (before, after) => Some (String c before, after)
           | None => None
           end
  end.

(** [s.split(' ', 1)]: at most one split, at the first space; empty pieces
    are kept. *)
Definition py_split_space_once (s : string) : list string :=
  match py_partition_space s with
  | Some (before, after) => [before; after]
  | None => [s]
  end.

(** The comprehension of [load_labels], on the list [f.readlines()]
    returns: its elements are computed in order and the first that raises
    ends the call. *)
Fixpoint load_labels (lines : list string) : outcome (list string) :=
  match lines with
  | [] => Normal []
  | line :: later =>
      match py_index (py_split_space_once (py_strip line)) 1 with
      | Raised e => Raised e
      | Normal name =>
          match load_labels later with
          | Raised e => Raised e
          | Normal names => Normal (name :: names)
          end
      end
  end.

(** [load_labels], the whole method.  [read] is what [open(path, 'r')]
    and [f.readlines()] give: the lines, or the exception that either
    raises (no such file, bytes that do not decode).  The [with] block
    closes the file and lets an exception through. *)
Definition load_labels_from (read : outcome (list string)) : outcome (list string) :=
  match read with
  | Raised e => Raised e
  | Normal lines => load_labels lines
  end.

(** A line of a label file: an index, one space, the name and the line's
    ending. *)
Definition label_line (index name ending : string) : string :=
  (index ++ " " ++ name ++ ending)%string.

Definition all_space (s : string) : bool :=
  forallb py_isspace (list_ascii_of_string s).

Definition no_space (s : string) : bool :=
  forallb (fun c => negb (py_isspace c)) (list_ascii_of_string s).

Definition has_space (s : string) : bool :=
  match py_partition_space s with Some _ => true | None => false end.

(** *** More observations on runs *)

(** The labels delivered to [class_callback], in order. *)
Fixpoint label_updates {X} (evs : list (event X)) : list string :=
  match evs with
  | [] => []
  | PredictedClassIn data :: later => data :: label_updates later
  | _ :: later => label_updates later
  end.


(** A scan of a trace for the use of the lock: [None] when it is acquired
    while held or released while free, else whether it is held at the end. *)
Fixpoint lock_scan (held : bool) (tr : list action) : option bool :=
  match tr with
  | [] => Some held
  | LockAcquire :: rest => if held then None else lock_scan true rest
  | LockRelease :: rest => if held then lock_scan false rest else None
  | _ :: rest => lock_scan held rest
  end.

(** The four messages of the loop body. *)
Definition twist_halt : Twist :=
  mkTwist (Vector3.make 0.0%float 0.0%float 0.0%float) (Vector3.make 0.0%float 0.0%float 0.0%float).
Definition twist_left : Twist :=
  mkTwist (Vector3.make 0.0%float 0.0%float 0.0%float) (Vector3.make 0.0%float 0.0%float 0.5%float).
Definition twist_right : Twist :=
  mkTwist (Vector3.make 0.0%float 0.0%float 0.0%float) (Vector3.make 0.0%float 0.0%float (-0.5)%float).
Definition twist_forward : Twist :=
  mkTwist (Vector3.make 0.2%float 0.0%float 0.0%float) (Vector3.make 0.0%float 0.0%float 0.0%float).

Definition demo_lines : list string :=
  [label_line "0" "Stop" newline; label_line "1" "Give_Way" newline;
   label_line "2" "Turn_Left" newline; label_line "3" "Turn_Right" newline;
   label_line "4" "Nothing" ""].

(** A well-formed entry of a label file: the index is not empty and has no
    whitespace, the name is not empty and does not end in whitespace, and
    the line's ending is whitespace only (a newline, or nothing on the last
    line). *)
Definition entry_ok (entry : string * string * string) : Prop :=
  let '(index, name, ending) := entry in
  index <> "" /\ no_space index = true /\
  name <> "" /\ py_rstrip name = name /\
  all_space ending = true.

Definition entry_line (entry : string * string * string) : string :=
  let '(index, name, ending) := entry in label_line index name ending.

Definition entry_name (entry : string * string * string) : string :=
  let '(_, name, _) := entry in name.

Definition IndexError : exn := PyException "IndexError" "list index out of range".

(** * Properties *)

(** ** The callbacks, run *)

Lemma motion_loop_turn_running (node : SignalBehaviorNode) :
  motion_loop_turn false node =
  mkResult (turn_actions (current_command node)) node (Normal Continue).
Proof.
  unfold motion_loop_turn, motion_loop_turn_io, quiet_turn, turn_actions, turn_text, turn_twist.
  cbn [shutdown_answer publish_outcome sleep_outcome]. run_monad.
  destruct (py_in (current_command node) ["Stop"; "Give_Way"]);
    [| destruct (String.eqb (current_command node) "Turn_Left");
       [| destruct (String.eqb (current_command node) "Turn_Right");
          [| destruct (String.eqb (current_command node) "Nothing") ]]];
    reflexivity.
Qed.

Lemma motion_loop_turn_shutdown (node : SignalBehaviorNode) :
  motion_loop_turn true node = mkResult [IsShutdown true] node (Normal Exit).
Proof. reflexivity. Qed.

Lemma class_callback_run (data : string) (node : SignalBehaviorNode) :
  class_callback data node =
  mkResult [LockAcquire; StoreCommand data; LoadCommand data;
            LogInfo (TxtSignalDetected data); LockRelease]
           (set_current_command data node) (Normal tt).
Proof. reflexivity. Qed.

Lemma odom_callback_run (msg : Odometry) (node : SignalBehaviorNode) :
  odom_callback msg node =
  mkResult [] (mkSignalBehaviorNode (position_x msg) (position_y msg) (current_command node))
           (Normal tt).
Proof. reflexivity. Qed.

Lemma toggle_callback_run (data : bool) (node : ImageClassifierNode) :
  toggle_callback data node =
  mkResult [LogInfo (TxtCaptureState data)] (set_capture_enabled data node) (Normal tt).
Proof. reflexivity. Qed.

Lemma image_callback_run (X : Classifier) (msg : ImageMsg X) (node : ImageClassifierNode) :
  image_callback X msg node =
  let counted := set_image_count (image_count node + 1) node in
  match frame_result X (labels node) (input_shape node) msg with
  | Raised e => handled e counted
  | Normal (class_name, confidence) =>
      match py_mod (image_count node + 1) (debug_interval node) with
      | Raised e => handled e counted
      | Normal remainder =>
          mkResult
            ((if remainder =? 0
              then [LogInfo (TxtImage (image_count node + 1) class_name confidence)]
              else []) ++ [PublishClass class_name])
            counted (Normal tt)
      end
  end.
Proof.
  unfold image_callback, frame_result, handled. run_monad.
  cbn [labels input_shape image_count debug_interval set_image_count].
  destruct (imgmsg_to_cv2 X msg) as [cv_image | e]; [| destruct e; reflexivity].
  destruct (resize X cv_image (input_shape node)) as [resized | e]; [| destruct e; reflexivity].
  destruct (to_batch X resized) as [img | e]; [| destruct e; reflexivity].
  destruct (predict X img) as [predictions | e]; [| destruct e; reflexivity].
  destruct (argmax X predictions) as [class_index | e]; [| destruct e; reflexivity].
  destruct (py_index (labels node) class_index) as [class_name | e]; [| destruct e; reflexivity].
  destruct (item X predictions class_index) as [confidence | e]; [| destruct e; reflexivity].
  destruct (py_mod (image_count node + 1) (debug_interval node)) as [remainder | e];
    [| destruct e; reflexivity].
  destruct (remainder =? 0); reflexivity.
Qed.

(** A run of the two nodes: a frame is classified and its label published,
    the label is delivered, the loop takes one turn and then sees the
    shutdown; the turn after that does not happen. *)
Example demo_run :
  snd (run demo_classifier demo_system
         [frame 2; PredictedClassIn "Stop"; LoopTurn false; LoopTurn true; LoopTurn false]) =
  [PublishClass "Stop";
   LockAcquire; StoreCommand "Stop"; LoadCommand "Stop";
   LogInfo (TxtSignalDetected "Stop"); LockRelease;
   IsShutdown false; LockAcquire; LoadCommand "Stop"; LockRelease;
   LogInfoThrottle 2.0%float (TxtStop "Stop");
   PublishCmdVel (mkTwist (Vector3.make 0.0%float 0.0%float 0.0%float)
                          (Vector3.make 0.0%float 0.0%float 0.0%float));
   RateSleep;
   IsShutdown true].
Proof. vm_compute. reflexivity. Qed.

(** Frame [0] raises [CvBridgeError] and frame [1] a [ValueError]: each is
    logged by its own clause and counted. *)
Example demo_failures :
  run demo_classifier demo_system [frame 0; frame 1] =
  (mkSystem (set_image_count 2 (classifier_node demo_system)) SignalBehaviorNode_init true,
   [LogErr (TxtCvBridgeError (CvBridgeError "unsupported encoding"));
    LogErr (TxtProcessingError (PyException "ValueError" "bad input shape"))]).
Proof. vm_compute. reflexivity. Qed.

(** ** The table of the loop body *)

Lemma turn_twist_halt (cmd : string) :
  cmd = "Stop" \/ cmd = "Give_Way" ->
  velocity_command (turn_twist cmd) = (0.0%float, 0.0%float).
Proof. intros [-> | ->]; reflexivity. Qed.

Lemma turn_twist_unknown (cmd : string) :
  ~ In cmd ["Stop"; "Give_Way"; "Turn_Left"; "Turn_Right"; "Nothing"] ->
  velocity_command (turn_twist cmd) = (0.0%float, 0.0%float).
Proof.
  intros H. unfold turn_twist, py_in, existsb.
  repeat match goal with
  | |- context [String.eqb cmd ?s] =>
      destruct (String.eqb_spec cmd s) as [E | _];
      [ exfalso; apply H; rewrite E; simpl; tauto | ]
  end.
  reflexivity.
Qed.

Lemma velocity_commands_turn (node : SignalBehaviorNode) :
  velocity_commands (actions (motion_loop_turn false node)) =
  [velocity_command (turn_twist (current_command node))].
Proof. rewrite motion_loop_turn_running. reflexivity. Qed.

(** C1. Whatever string the loop reads from the command cell on a turn, the
    turn ends normally and publishes one message, whose
    [(linear_x, angular_z)] is the entry of the table: [(0.0, 0.0)] for
    "Stop" and "Give_Way", [(0.0, 0.5)] for "Turn_Left", [(0.0, -0.5)] for
    "Turn_Right", [(0.2, 0.0)] for "Nothing" and [(0.0, 0.0)] for every
    other string. *)
Theorem C1_label_to_velocity_table (node : SignalBehaviorNode) :
  let cmd := current_command node in
  let r := motion_loop_turn false node in
  value r = Normal Continue /\
  In (LoadCommand cmd) (actions r) /\
  (cmd = "Stop" \/ cmd = "Give_Way" ->
   velocity_commands (actions r) = [(0.0%float, 0.0%float)]) /\
  (cmd = "Turn_Left" ->
   velocity_commands (actions r) = [(0.0%float, 0.5%float)]) /\
  (cmd = "Turn_Right" ->
   velocity_commands (actions r) = [(0.0%float, (-0.5)%float)]) /\
  (cmd = "Nothing" ->
   velocity_commands (actions r) = [(0.2%float, 0.0%float)]) /\
  (~ In cmd ["Stop"; "Give_Way"; "Turn_Left"; "Turn_Right"; "Nothing"] ->
   velocity_commands (actions r) = [(0.0%float, 0.0%float)]).
Proof.
  intros cmd r. subst r. rewrite velocity_commands_turn.
  rewrite motion_loop_turn_running. fold cmd.
  split; [reflexivity |].
  split; [simpl; tauto |].
  split; [intros H; rewrite (turn_twist_halt cmd H); reflexivity |].
  split; [intros ->; reflexivity |].
  split; [intros ->; reflexivity |].
  split; [intros ->; reflexivity |].
  intros H; rewrite (turn_twist_unknown cmd H); reflexivity.
Qed.

Lemma C1_label_to_velocity_table_witness :
  velocity_commands
    (actions (motion_loop_turn false
                (mkSignalBehaviorNode 0.0%float 0.0%float "Pedestrian_Crossing"))) =
  [(0.0%float, 0.0%float)].
Proof.
  apply (C1_label_to_velocity_table
           (mkSignalBehaviorNode 0.0%float 0.0%float "Pedestrian_Crossing")).
  simpl. intros H. repeat (destruct H as [H | H]; [discriminate H |]). exact H.
Defined.

(** ** Streams of a trace *)

Lemma label_stream_app (a b : list action) :
  label_stream (a ++ b) = label_stream a ++ label_stream b.
Proof.
  induction a as [| x a IH]; [reflexivity |].
  destruct x; simpl; rewrite IH; reflexivity.
Qed.

Lemma cmd_vel_stream_app (a b : list action) :
  cmd_vel_stream (a ++ b) = cmd_vel_stream a ++ cmd_vel_stream b.
Proof.
  induction a as [| x a IH]; [reflexivity |].
  destruct x; simpl; rewrite IH; reflexivity.
Qed.

Lemma velocity_commands_app (a b : list action) :
  velocity_commands (a ++ b) = velocity_commands a ++ velocity_commands b.
Proof. unfold velocity_commands. rewrite cmd_vel_stream_app. apply map_app. Qed.

Lemma published_app (a b : list action) :
  published (a ++ b) =
  (fst (published a) ++ fst (published b), snd (published a) ++ snd (published b)).
Proof. unfold published. rewrite label_stream_app, cmd_vel_stream_app. reflexivity. Qed.

Lemma published_handled (e : exn) (node : ImageClassifierNode) :
  published (actions (handled e node) ++ escaped (value (handled e node))) = ([], []).
Proof. destruct e; reflexivity. Qed.

(** ** Steps of the system *)

Section Steps.
Variable X : Classifier.
Implicit Types (sys : System) (ev : event X) (evs : list (event X)).

Lemma run_cons sys ev evs :
  run X sys (ev :: evs) =
  (fst (run X (fst (step X sys ev)) evs),
   snd (step X sys ev) ++ snd (run X (fst (step X sys ev)) evs)).
Proof.
  cbn [run]. destruct (step X sys ev) as [sys1 out1]. cbn [fst snd].
  destruct (run X sys1 evs) as [sys2 out2]. reflexivity.
Qed.

Lemma run_app sys evs evs' :
  run X sys (evs ++ evs') =
  (fst (run X (fst (run X sys evs)) evs'),
   snd (run X sys evs) ++ snd (run X (fst (run X sys evs)) evs')).
Proof.
  revert sys. induction evs as [| ev evs IH]; intros sys.
  - simpl. destruct (run X sys evs'); reflexivity.
  - rewrite <- app_comm_cons. rewrite !run_cons. rewrite IH. simpl.
    rewrite app_assoc. reflexivity.
Qed.

Lemma step_loop_turn_running sys :
  control_thread_alive sys = true ->
  step X sys (LoopTurn false) =
  (mkSystem (classifier_node sys) (behavior_node sys) true,
   turn_actions (current_command (behavior_node sys))).
Proof.
  intros H. unfold step. rewrite H, motion_loop_turn_running. reflexivity.
Qed.

Lemma step_loop_turn_shutdown sys :
  control_thread_alive sys = true ->
  step X sys (LoopTurn true) =
  (mkSystem (classifier_node sys) (behavior_node sys) false, [IsShutdown true]).
Proof. intros H. unfold step. rewrite H. reflexivity. Qed.

Lemma step_loop_turn_finished sys shutdown :
  control_thread_alive sys = false ->
  step X sys (LoopTurn shutdown) = (sys, []).
Proof. intros H. unfold step. rewrite H. reflexivity. Qed.

(** A step from two states with one view: the views stay one and the same
    labels and messages are published. *)
Lemma step_respects_view sys1 sys2 ev :
  control_view sys1 = control_view sys2 ->
  control_view (fst (step X sys1 ev)) = control_view (fst (step X sys2 ev)) /\
  published (snd (step X sys1 ev)) = published (snd (step X sys2 ev)).
Proof.
  unfold control_view. intros H. injection H as Hl Hs Hd Hc Ha.
  destruct ev as [msg | data | msg | data | shutdown].
  - unfold step. rewrite !image_callback_run. cbv zeta. rewrite Hl, Hs, Hd.
    destruct (frame_result X _ _ msg) as [[class_name confidence] | e].
    + unfold py_mod. destruct (debug_interval (classifier_node sys2) =? 0).
      * unfold fst at 1 3, snd at 1 2. rewrite !published_handled.
        split; [| reflexivity].
        destruct (PyException _ _); cbn; rewrite ?Hl, ?Hs, ?Hd, ?Hc, ?Ha; reflexivity.
      * cbn [fst snd actions final value escaped].
        cbn [labels input_shape debug_interval set_image_count classifier_node
             behavior_node control_thread_alive].
        rewrite Hl, Hs, Hd, Hc, Ha. split; [reflexivity |].
        rewrite !app_nil_r, !published_app.
        do 2 destruct (_ =? 0); reflexivity.
    + unfold fst at 1 3, snd at 1 2. rewrite !published_handled.
      split; [| reflexivity].
      destruct e; cbn; rewrite ?Hl, ?Hs, ?Hd, ?Hc, ?Ha; reflexivity.
  - cbn. rewrite Hl, Hs, Hd, Hc, Ha. split; reflexivity.
  - cbn. rewrite Hl, Hs, Hd, Hc, Ha. split; reflexivity.
  - cbn. rewrite Hl, Hs, Hd, Ha. split; reflexivity.
  - destruct (control_thread_alive sys1) eqn:A1; symmetry in Ha.
    + destruct shutdown.
      * rewrite !step_loop_turn_shutdown by assumption. cbn.
        rewrite Hl, Hs, Hd, Hc. split; reflexivity.
      * rewrite !step_loop_turn_running by assumption. cbn.
        rewrite Hl, Hs, Hd, Hc. split; reflexivity.
    + rewrite !step_loop_turn_finished by assumption. cbn.
      rewrite Hl, Hs, Hd, Hc, A1, Ha. split; reflexivity.
Qed.

Lemma run_respects_view evs : forall sys1 sys2,
  control_view sys1 = control_view sys2 ->
  control_view (fst (run X sys1 evs)) = control_view (fst (run X sys2 evs)) /\
  published (snd (run X sys1 evs)) = published (snd (run X sys2 evs)).
Proof.
  induction evs as [| ev evs IH]; intros sys1 sys2 H.
  - simpl. split; [exact H | reflexivity].
  - rewrite !run_cons. cbn [fst snd].
    destruct (step_respects_view sys1 sys2 ev H) as [Hv Hp].
    destruct (IH _ _ Hv) as [Hv' Hp'].
    split; [exact Hv' |].
    rewrite !published_app, Hp, Hp'. reflexivity.
Qed.

(** Toggle and odometry deliveries leave the view alone and publish
    nothing. *)
Lemma step_silent sys ev :
  is_toggle ev || is_odom ev = true ->
  control_view (fst (step X sys ev)) = control_view sys /\
  published (snd (step X sys ev)) = ([], []).
Proof.
  destruct ev; try discriminate; intros _; split; reflexivity.
Qed.

Lemma run_without (kind : event X -> bool) :
  (forall ev, kind ev = true -> is_toggle ev || is_odom ev = true) ->
  forall evs sys1 sys2,
  control_view sys1 = control_view sys2 ->
  published (snd (run X sys1 evs)) = published (snd (run X sys2 (without kind evs))).
Proof.
  intros Hk. induction evs as [| ev evs IH]; intros sys1 sys2 H.
  - reflexivity.
  - unfold without. cbn [filter]. fold (without kind evs).
    destruct (kind ev) eqn:K; cbn [negb].
    + rewrite run_cons. cbn [snd].
      destruct (step_silent sys1 ev (Hk ev K)) as [Hv Hp].
      rewrite published_app, Hp. cbn [fst snd app].
      rewrite <- (IH (fst (step X sys1 ev)) sys2) by (rewrite Hv; exact H).
      destruct (published _); reflexivity.
    + rewrite !run_cons. cbn [snd].
      destruct (step_respects_view sys1 sys2 ev H) as [Hv Hp].
      rewrite !published_app, Hp, (IH _ _ Hv). reflexivity.
Qed.

End Steps.

(** ** Frames *)

Lemma handled_final (e : exn) (node : ImageClassifierNode) :
  final (handled e node) = node.
Proof. destruct e; reflexivity. Qed.

Lemma image_callback_final (X : Classifier) (msg : ImageMsg X) (node : ImageClassifierNode) :
  final (image_callback X msg node) = set_image_count (image_count node + 1) node.
Proof.
  rewrite image_callback_run. cbv zeta.
  destruct (frame_result X _ _ msg) as [[class_name confidence] | e];
    [| apply handled_final].
  destruct (py_mod _ _) as [remainder | e]; [reflexivity | apply handled_final].
Qed.

Lemma image_callback_cmd_vel (X : Classifier) (msg : ImageMsg X) (node : ImageClassifierNode) :
  cmd_vel_stream (actions (image_callback X msg node) ++
                  escaped (value (image_callback X msg node))) = [].
Proof.
  rewrite image_callback_run. cbv zeta.
  destruct (frame_result X _ _ msg) as [[class_name confidence] | e];
    [| destruct e; reflexivity].
  destruct (py_mod _ _) as [remainder | e]; [| destruct e; reflexivity].
  cbn [actions value escaped]. destruct (remainder =? 0); reflexivity.
Qed.

(** A frame whose processing raises an instance of [Exception] is logged and
    nothing else. *)
Lemma image_callback_failure (X : Classifier) (msg : ImageMsg X)
  (node : ImageClassifierNode) (e : exn) :
  frame_result X (labels node) (input_shape node) msg = Raised e ->
  isinstance_Exception e = true ->
  exists text,
    image_callback X msg node =
    mkResult [LogErr text] (set_image_count (image_count node + 1) node) (Normal tt).
Proof.
  intros Hf He. rewrite image_callback_run, Hf. cbv zeta. unfold handled.
  rewrite He. destruct (isinstance_CvBridgeError e); eexists; reflexivity.
Qed.

Lemma decode_fails_frame_result (X : Classifier) (msg : ImageMsg X)
  (node : ImageClassifierNode) (e : exn) :
  decode_fails X msg e ->
  frame_result X (labels node) (input_shape node) msg = Raised e.
Proof. unfold decode_fails, frame_result. intros ->. reflexivity. Qed.

Lemma classify_fails_frame_result (X : Classifier) (msg : ImageMsg X)
  (node : ImageClassifierNode) (e : exn) :
  classify_fails X node msg e ->
  frame_result X (labels node) (input_shape node) msg = Raised e.
Proof.
  intros (cv_image & resized & img & H1 & H2 & H3 & H4).
  unfold frame_result. rewrite H1, H2, H3, H4. reflexivity.
Qed.

(** ** The command cell along a run *)

Section CommandCell.
Variable X : Classifier.
Implicit Types (sys : System) (ev : event X) (evs : list (event X)).

Lemma step_keeps_command sys ev :
  is_label_update ev = false ->
  current_command (behavior_node (fst (step X sys ev))) =
  current_command (behavior_node sys).
Proof.
  destruct ev as [msg | data | msg | data | shutdown]; try discriminate; intros _;
    try reflexivity.
  unfold step. destruct (control_thread_alive sys); [| reflexivity].
  destruct shutdown; [reflexivity |].
  rewrite motion_loop_turn_running. reflexivity.
Qed.

Lemma run_keeps_command evs : forall sys,
  existsb is_label_update evs = false ->
  current_command (behavior_node (fst (run X sys evs))) =
  current_command (behavior_node sys).
Proof.
  induction evs as [| ev evs IH]; intros sys H; [reflexivity |].
  cbn [existsb] in H. apply orb_false_elim in H as [H1 H2].
  rewrite run_cons. cbn [fst]. rewrite IH by exact H2.
  apply step_keeps_command, H1.
Qed.

(** A step publishes on [/cmd_vel] only when it is a turn of the running
    loop with no shutdown seen, and then the message of the command held. *)
Lemma step_cmd_vel sys ev :
  cmd_vel_stream (snd (step X sys ev)) =
  match ev with
  | LoopTurn false =>
      if control_thread_alive sys
      then [turn_twist (current_command (behavior_node sys))] else []
  | _ => []
  end.
Proof.
  destruct ev as [msg | data | msg | data | shutdown]; try reflexivity.
  - apply image_callback_cmd_vel.
  - unfold step. destruct (control_thread_alive sys); [| destruct shutdown; reflexivity].
    destruct shutdown; [reflexivity |].
    rewrite motion_loop_turn_running. reflexivity.
Qed.

Lemma run_cmd_vel_constant (cmd : string) evs : forall sys,
  existsb is_label_update evs = false ->
  current_command (behavior_node sys) = cmd ->
  Forall (fun t => t = turn_twist cmd) (cmd_vel_stream (snd (run X sys evs))).
Proof.
  induction evs as [| ev evs IH]; intros sys H Hc; [constructor |].
  cbn [existsb] in H. apply orb_false_elim in H as [H1 H2].
  rewrite run_cons. cbn [snd]. rewrite cmd_vel_stream_app.
  apply Forall_app. split.
  - rewrite step_cmd_vel. destruct ev as [| | | | []]; try constructor.
    destruct (control_thread_alive sys); repeat constructor.
    rewrite Hc. reflexivity.
  - apply IH; [exact H2 |]. rewrite step_keeps_command by exact H1. exact Hc.
Qed.

Lemma run_turns (n : nat) : forall sys,
  control_thread_alive sys = true ->
  cmd_vel_stream (snd (run X sys (repeat (LoopTurn false) n))) =
  repeat (turn_twist (current_command (behavior_node sys))) n.
Proof.
  induction n as [| n IH]; intros sys H; [reflexivity |].
  cbn [repeat]. rewrite run_cons. rewrite step_loop_turn_running by exact H.
  cbn [fst snd]. rewrite cmd_vel_stream_app, IH by reflexivity. reflexivity.
Qed.

End CommandCell.

(** C2. The constructor leaves "Nothing" in the command cell, and as long as
    no label update has been delivered the cell still holds it: every
    message the loop has published is [(0.2, 0.0)], the next turn of the
    running loop publishes [(0.2, 0.0)], and five turns with nothing else
    delivered publish it five times. *)
Theorem C2_nothing_before_first_label (X : Classifier) (names : list string)
  (shape : Z * Z) (now : float) (evs : list (event X))
  (H : existsb is_label_update evs = false) :
  let init := System_init names shape now in
  let sys := fst (run X init evs) in
  current_command (behavior_node init) = "Nothing" /\
  current_command (behavior_node sys) = "Nothing" /\
  Forall (fun v => v = (0.2%float, 0.0%float)) (velocity_commands (snd (run X init evs))) /\
  (control_thread_alive sys = true ->
   velocity_commands (snd (step X sys (LoopTurn false))) = [(0.2%float, 0.0%float)]) /\
  velocity_commands (snd (run X init (repeat (LoopTurn false) 5))) =
  repeat (0.2%float, 0.0%float) 5.
Proof.
  intros init sys.
  assert (Hs : current_command (behavior_node sys) = "Nothing")
    by (unfold sys; rewrite run_keeps_command by exact H; reflexivity).
  split; [reflexivity |]. split; [exact Hs |]. split; [| split].
  - unfold velocity_commands. apply Forall_map.
    eapply Forall_impl; [| apply (run_cmd_vel_constant X "Nothing" evs init H); reflexivity].
    intros t ->. reflexivity.
  - intros Ha. rewrite step_loop_turn_running by exact Ha. rewrite Hs. reflexivity.
  - unfold velocity_commands. rewrite run_turns by reflexivity. reflexivity.
Qed.

Lemma C2_nothing_before_first_label_witness :
  let evs : list (event demo_classifier) := [LoopTurn false; frame 0; LoopTurn false;
              OdomIn (mkOdometry 1.5%float 2.5%float); CaptureToggleIn false;
              LoopTurn false] in
  existsb is_label_update evs = false /\
  Forall (fun v => v = (0.2%float, 0.0%float))
    (velocity_commands (snd (run demo_classifier demo_system evs))) /\
  length (velocity_commands (snd (run demo_classifier demo_system evs))) = 3%nat.
Proof.
  intros evs. split; [reflexivity |]. split; [| reflexivity].
  apply (C2_nothing_before_first_label demo_classifier demo_labels (224, 224) 0.0%float evs).
  reflexivity.
Defined.

(** C3. When decoding the frame or the call of the model raises an error (an
    instance of [Exception]), [image_callback] logs it and does nothing else:
    no label is published, nothing leaves the callback, the behaviour node
    (with its command cell) and the control thread are untouched, the
    classifier node differs in its frame counter only, and the labels and
    messages published in the rest of the run are those of the run without
    the frame. *)
Theorem C3_failed_frame_is_dropped (X : Classifier) (sys : System) (msg : ImageMsg X)
  (e : exn) (later : list (event X))
  (Hfail : decode_fails X msg e \/ classify_fails X (classifier_node sys) msg e)
  (Herr : isinstance_Exception e = true) :
  let sys' := fst (step X sys (ImageIn msg)) in
  let out := snd (step X sys (ImageIn msg)) in
  (exists text, out = [LogErr text]) /\
  label_stream out = [] /\
  existsb is_uncaught out = false /\
  behavior_node sys' = behavior_node sys /\
  control_thread_alive sys' = control_thread_alive sys /\
  classifier_node sys' =
    set_image_count (image_count (classifier_node sys) + 1) (classifier_node sys) /\
  published (snd (run X sys' later)) = published (snd (run X sys later)) /\
  published (snd (run X sys (ImageIn msg :: later))) = published (snd (run X sys later)).
Proof.
  intros sys' out.
  assert (Hf : frame_result X (labels (classifier_node sys))
                 (input_shape (classifier_node sys)) msg = Raised e).
  { destruct Hfail as [Hd | Hc];
      [apply decode_fails_frame_result | apply classify_fails_frame_result]; assumption. }
  destruct (image_callback_failure X msg (classifier_node sys) e Hf Herr) as [text Hr].
  assert (Hout : out = [LogErr text]) by (unfold out, step; rewrite Hr; reflexivity).
  assert (Hsys : sys' = mkSystem
            (set_image_count (image_count (classifier_node sys) + 1) (classifier_node sys))
            (behavior_node sys) (control_thread_alive sys))
    by (unfold sys', step; rewrite Hr; reflexivity).
  assert (Hrest : published (snd (run X sys' later)) = published (snd (run X sys later)))
    by (apply run_respects_view; rewrite Hsys; reflexivity).
  split; [exists text; exact Hout |].
  rewrite Hout, Hsys. cbn [classifier_node behavior_node control_thread_alive].
  repeat (split; [reflexivity |]).
  rewrite <- Hsys. split; [exact Hrest |].
  rewrite run_cons. cbn [snd]. fold sys' out.
  rewrite published_app, Hrest, Hout. destruct (published _). reflexivity.
Qed.

Lemma C3_failed_frame_is_dropped_witness :
  let later : list (event demo_classifier) := [frame 4; LoopTurn false; PredictedClassIn "Turn_Left"; LoopTurn false] in
  snd (step demo_classifier demo_system (frame 1)) =
    [LogErr (TxtProcessingError (PyException "ValueError" "bad input shape"))] /\
  published (snd (run demo_classifier demo_system (frame 1 :: later))) =
  published (snd (run demo_classifier demo_system later)).
Proof.
  intros later. split; [reflexivity |].
  apply (C3_failed_frame_is_dropped demo_classifier demo_system 1%nat
           (PyException "ValueError" "bad input shape") later).
  - right. exists 1%nat, 1%nat, 1%nat. repeat split; reflexivity.
  - reflexivity.
Defined.

(** ** Runs that differ in events of one kind *)

Lemma published_without (X : Classifier) (kind : event X -> bool)
  (sys : System) (evs1 evs2 : list (event X)) :
  (forall ev, kind ev = true -> is_toggle ev || is_odom ev = true) ->
  without kind evs1 = without kind evs2 ->
  label_stream (snd (run X sys evs1)) = label_stream (snd (run X sys evs2)) /\
  cmd_vel_stream (snd (run X sys evs1)) = cmd_vel_stream (snd (run X sys evs2)).
Proof.
  intros Hk H.
  assert (E : published (snd (run X sys evs1)) = published (snd (run X sys evs2))).
  { rewrite (run_without X kind Hk evs1 sys sys eq_refl).
    rewrite (run_without X kind Hk evs2 sys sys eq_refl).
    rewrite H. reflexivity. }
  unfold published in E. injection E as E1 E2. split; assumption.
Qed.

(** C4. Two runs from one state whose events are the same once the
    capture-toggle deliveries are taken out publish the same labels and the
    same velocity messages; [toggle_callback] replaces the flag and logs the
    new state, and the delivery changes nothing else in the system. *)
Theorem C4_capture_toggle_independence (X : Classifier) (sys : System)
  (evs1 evs2 : list (event X))
  (H : without is_toggle evs1 = without is_toggle evs2) :
  label_stream (snd (run X sys evs1)) = label_stream (snd (run X sys evs2)) /\
  cmd_vel_stream (snd (run X sys evs1)) = cmd_vel_stream (snd (run X sys evs2)) /\
  (forall data node,
     toggle_callback data node =
     mkResult [LogInfo (TxtCaptureState data)]
       (mkImageClassifierNode (labels node) (input_shape node) data
          (last_capture_time node) (capture_interval node) (image_count node)
          (debug_interval node))
       (Normal tt)) /\
  (forall data,
     step X sys (CaptureToggleIn data) =
     (mkSystem (set_capture_enabled data (classifier_node sys)) (behavior_node sys)
        (control_thread_alive sys),
      [LogInfo (TxtCaptureState data)])).
Proof.
  destruct (published_without X is_toggle sys evs1 evs2) as [Hl Hc].
  - intros ev Hk. rewrite Hk. reflexivity.
  - exact H.
  - repeat split; try assumption; reflexivity.
Qed.

Lemma C4_capture_toggle_independence_witness :
  let evs1 : list (event demo_classifier) := [CaptureToggleIn false; frame 4; PredictedClassIn "Turn_Left";
               LoopTurn false; frame 2] in
  let evs2 : list (event demo_classifier) := [frame 4; CaptureToggleIn true; PredictedClassIn "Turn_Left";
               CaptureToggleIn false; LoopTurn false; frame 2; CaptureToggleIn true] in
  label_stream (snd (run demo_classifier demo_system evs1)) = ["Turn_Left"; "Stop"] /\
  label_stream (snd (run demo_classifier demo_system evs1)) =
  label_stream (snd (run demo_classifier demo_system evs2)).
Proof.
  intros evs1 evs2. split; [reflexivity |].
  apply (C4_capture_toggle_independence demo_classifier demo_system evs1 evs2).
  reflexivity.
Defined.

(** C5. The message a turn of the loop publishes is a function of the
    command read on that turn alone: two states of the system that hold the
    same command, whatever else they hold and whatever was delivered before,
    publish the same single message, and one function of the label gives
    the pair published from every state. *)
Theorem C5_mapping_depends_on_label_only (X : Classifier) (sys1 sys2 : System)
  (Hc : current_command (behavior_node sys1) = current_command (behavior_node sys2))
  (H1 : control_thread_alive sys1 = true)
  (H2 : control_thread_alive sys2 = true) :
  cmd_vel_stream (snd (step X sys1 (LoopTurn false))) =
  cmd_vel_stream (snd (step X sys2 (LoopTurn false))) /\
  length (cmd_vel_stream (snd (step X sys1 (LoopTurn false)))) = 1%nat /\
  actions (motion_loop_turn false (behavior_node sys1)) =
  actions (motion_loop_turn false (behavior_node sys2)) /\
  exists mapping : string -> float * float,
    forall sys, control_thread_alive sys = true ->
      velocity_commands (snd (step X sys (LoopTurn false))) =
      [mapping (current_command (behavior_node sys))].
Proof.
  rewrite !step_cmd_vel, H1, H2, Hc. rewrite !motion_loop_turn_running, Hc.
  repeat split.
  exists (fun cmd => velocity_command (turn_twist cmd)).
  intros sys Ha. unfold velocity_commands. rewrite step_cmd_vel, Ha. reflexivity.
Qed.

Lemma C5_mapping_depends_on_label_only_witness :
  let sys1 := fst (run demo_classifier demo_system
                     [PredictedClassIn "Stop"; PredictedClassIn "Turn_Left"]) in
  let sys2 := fst (run demo_classifier demo_system
                     [OdomIn (mkOdometry 3.0%float 4.0%float); frame 2;
                      CaptureToggleIn false; PredictedClassIn "Nothing"; LoopTurn false;
                      PredictedClassIn "Turn_Left"]) in
  sys1 <> sys2 /\
  cmd_vel_stream (snd (step demo_classifier sys1 (LoopTurn false))) =
  cmd_vel_stream (snd (step demo_classifier sys2 (LoopTurn false))).
Proof.
  intros sys1 sys2. split; [intros E; discriminate E |].
  apply (C5_mapping_depends_on_label_only demo_classifier sys1 sys2); reflexivity.
Defined.

(** ** The lock *)

(** C6, as stated, fails on [class_callback]: with the lock held it stores
    the label and then logs it. *)
Lemma C6_log_under_lock_counterexample :
  ~ lock_free_of_io (actions (class_callback "Stop" SignalBehaviorNode_init)).
Proof. unfold lock_free_of_io. cbn. discriminate. Qed.

(** C6, amended. The loop holds the lock for its one read of the command
    cell and does all its logging and publishing after the release;
    [class_callback] holds it for the overwrite of the cell and for the
    informational log of the value stored, in this order, and for nothing
    else: neither holds it across a publication or a sleep. *)
Theorem C6_critical_sections (data : string) (node : SignalBehaviorNode) :
  under_lock false (actions (motion_loop_turn false node)) =
    [LoadCommand (current_command node)] /\
  lock_free_of_io (actions (motion_loop_turn false node)) /\
  under_lock false (actions (motion_loop_turn true node)) = [] /\
  under_lock false (actions (class_callback data node)) =
    [StoreCommand data; LoadCommand data; LogInfo (TxtSignalDetected data)] /\
  filter is_io (under_lock false (actions (class_callback data node))) =
    [LogInfo (TxtSignalDetected data)].
Proof.
  rewrite motion_loop_turn_running. repeat split.
Qed.

(** ** The loop *)

Lemma count_app (p : action -> bool) (a b : list action) :
  count p (a ++ b) = (count p a + count p b)%nat.
Proof. unfold count. rewrite filter_app, length_app. reflexivity. Qed.

Lemma motion_loop_exit (later : list bool) (node : SignalBehaviorNode) :
  motion_loop (true :: later) node = mkResult [IsShutdown true] node (Normal Exit).
Proof. reflexivity. Qed.

Lemma motion_loop_again (later : list bool) (node : SignalBehaviorNode) :
  motion_loop (false :: later) node =
  mkResult (turn_actions (current_command node) ++ actions (motion_loop later node))
    (final (motion_loop later node)) (value (motion_loop later node)).
Proof.
  cbn [motion_loop]. unfold bind at 1. rewrite motion_loop_turn_running.
  destruct (motion_loop later node). reflexivity.
Qed.


Lemma motion_loop_value (answers : list bool) (node : SignalBehaviorNode) :
  value (motion_loop answers node) =
  Normal (if existsb (fun a => a) answers then Exit else Continue).
Proof.
  induction answers as [| [] later IH]; [reflexivity | reflexivity |].
  rewrite motion_loop_again. exact IH.
Qed.

Lemma motion_loop_counts (answers : list bool) (node : SignalBehaviorNode) :
  let tr := actions (motion_loop answers node) in
  count is_load tr = turns_taken answers /\
  count is_publish_cmd_vel tr = turns_taken answers /\
  count is_sleep tr = turns_taken answers /\
  count is_shutdown_check tr =
    (turns_taken answers + if existsb (fun a => a) answers then 1 else 0)%nat.
Proof.
  induction answers as [| [] later IH]; [repeat split | repeat split |].
  cbv zeta in *. rewrite motion_loop_again. cbn [actions].
  rewrite !count_app. destruct IH as (-> & -> & -> & ->).
  repeat split.
Qed.

Lemma run_thread_alive (X : Classifier) (evs : list (event X)) : forall sys,
  control_thread_alive (fst (run X sys evs)) =
  control_thread_alive sys && negb (existsb is_shutdown_turn evs).
Proof.
  induction evs as [| ev evs IH]; intros sys.
  - simpl. rewrite andb_true_r. reflexivity.
  - rewrite run_cons. cbn [fst existsb]. rewrite IH, negb_orb, andb_assoc. f_equal.
    destruct ev as [msg | data | msg | data | shutdown]; cbn [is_shutdown_turn negb];
      rewrite ?andb_true_r; try reflexivity.
    unfold step. destruct (control_thread_alive sys) eqn:A.
    + destruct shutdown; [reflexivity |]. rewrite motion_loop_turn_running. reflexivity.
    + cbn. exact A.
Qed.

Lemma motion_loop_turn_io_run (io : turn_io) (node : SignalBehaviorNode) :
  motion_loop_turn_io io node =
  let cmd := current_command node in
  let before_publish :=
    [IsShutdown false; LockAcquire; LoadCommand cmd; LockRelease;
     LogInfoThrottle 2.0%float (turn_text cmd)] in
  if shutdown_answer io then mkResult [IsShutdown true] node (Normal Exit)
  else match publish_outcome io with
       | Raised e => mkResult before_publish node (Raised e)
       | Normal _ =>
           match sleep_outcome io with
           | Raised e =>
               mkResult (before_publish ++ [PublishCmdVel (turn_twist cmd)]) node (Raised e)
           | Normal _ =>
               mkResult (before_publish ++ [PublishCmdVel (turn_twist cmd); RateSleep])
                 node (Normal Continue)
           end
       end.
Proof.
  destruct io as [answer publish sleep].
  unfold motion_loop_turn_io, turn_text, turn_twist.
  cbn [shutdown_answer publish_outcome sleep_outcome]. run_monad.
  destruct answer; [reflexivity |].
  destruct (py_in (current_command node) ["Stop"; "Give_Way"]);
    [| destruct (String.eqb (current_command node) "Turn_Left");
       [| destruct (String.eqb (current_command node) "Turn_Right");
          [| destruct (String.eqb (current_command node) "Nothing") ]]];
    destruct publish as [[] | e]; try reflexivity;
    destruct sleep as [[] | e]; reflexivity.
Qed.

Lemma motion_loop_io_cons (io : turn_io) (later : list turn_io) (node : SignalBehaviorNode) :
  motion_loop_io (io :: later) node =
  match motion_loop_turn_io io node with
  | mkResult tr s (Normal Continue) =>
      mkResult (tr ++ actions (motion_loop_io later s)) (final (motion_loop_io later s))
        (value (motion_loop_io later s))
  | mkResult tr s (Normal Exit) => mkResult (tr ++ []) s (Normal Exit)
  | mkResult tr s (Raised e) => mkResult tr s (Raised e)
  end.
Proof.
  cbn [motion_loop_io]. unfold bind.
  destruct (motion_loop_turn_io io node) as [tr s [[] | e]]; try reflexivity.
  destruct (motion_loop_io later s); reflexivity.
Qed.

Lemma motion_loop_io_run (turns : list turn_io) (node : SignalBehaviorNode) :
  let loop := motion_loop_io turns node in
  value loop = loop_end turns /\
  final loop = node /\
  count is_shutdown_check (actions loop) = turns_started turns /\
  (count is_sleep (actions loop) <= count is_publish_cmd_vel (actions loop))%nat /\
  (count is_publish_cmd_vel (actions loop) <= count is_load (actions loop))%nat /\
  (count is_load (actions loop) <= count is_shutdown_check (actions loop))%nat.
Proof.
  cbv zeta. induction turns as [| io later IH]; [cbn; repeat split; lia |].
  rewrite motion_loop_io_cons, motion_loop_turn_io_run. cbv zeta.
  cbn [loop_end turns_started]. unfold turn_raises.
  destruct (shutdown_answer io); [unfold count; cbn; repeat split; lia |].
  destruct (publish_outcome io) as [[] | e]; [| unfold count; cbn; repeat split; lia].
  destruct (sleep_outcome io) as [[] | e]; [| unfold count; cbn; repeat split; lia].
  cbn [actions final value]. rewrite !count_app.
  destruct IH as (-> & -> & -> & H1 & H2 & H3).
  unfold count in *.
  cbn [app filter is_shutdown_check is_sleep is_publish_cmd_vel is_load length].
  repeat split; lia.
Qed.

Lemma loop_end_exit (turns : list turn_io) :
  loop_end turns = Normal Exit -> existsb shutdown_answer turns = true.
Proof.
  induction turns as [| io later IH]; [discriminate |].
  cbn [loop_end existsb]. destruct (shutdown_answer io); [reflexivity |].
  destruct (turn_raises io); [discriminate | exact IH].
Qed.

Lemma loop_end_raised (turns : list turn_io) (e : exn) :
  loop_end turns = Raised e ->
  exists io, In io turns /\ shutdown_answer io = false /\
             (publish_outcome io = Raised e \/ sleep_outcome io = Raised e).
Proof.
  induction turns as [| io later IH]; [discriminate |].
  cbn [loop_end]. destruct (shutdown_answer io) eqn:A; [discriminate |].
  unfold turn_raises. rewrite A.
  destruct (publish_outcome io) as [[] | e1] eqn:P.
  - destruct (sleep_outcome io) as [[] | e2] eqn:S.
    + intros H. destruct (IH H) as (io' & Hin & H').
      exists io'. split; [right; exact Hin | exact H'].
    + intros H. injection H as <-. exists io. repeat split; [left; reflexivity | exact A |].
      right. exact S.
  - intros H. injection H as <-. exists io. repeat split; [left; reflexivity | exact A |].
    left. exact P.
Qed.

Lemma motion_loop_quiet (answers : list bool) : forall node,
  motion_loop answers node = motion_loop_io (map quiet_turn answers) node.
Proof.
  induction answers as [| shutdown later IH]; intros node; [reflexivity |].
  cbn [map]. rewrite motion_loop_io_cons. cbn [motion_loop]. unfold bind, motion_loop_turn.
  destruct (motion_loop_turn_io (quiet_turn shutdown) node) as [tr s [[] | e]];
    try reflexivity.
  rewrite <- IH. destruct (motion_loop later s); reflexivity.
Qed.

(** C7, as stated, fails: the body of the loop has no handler, so an
    exception of [rate.sleep()] (here ROS time moving backwards) on the
    second turn ends the loop though every check has answered [False]; the
    third turn is not started. *)
Lemma C7_loop_ends_without_shutdown_counterexample :
  let moved_backwards :=
    PyException "ROSTimeMovedBackwardsException" "ROS time moved backwards" in
  let turns :=
    [quiet_turn false; mkTurnIo false (Normal tt) (Raised moved_backwards); quiet_turn false] in
  let loop := motion_loop_io turns SignalBehaviorNode_init in
  existsb shutdown_answer turns = false /\
  value loop = Raised moved_backwards /\
  count is_shutdown_check (actions loop) = 2%nat /\
  count is_publish_cmd_vel (actions loop) = 2%nat /\
  count is_sleep (actions loop) = 1%nat.
Proof. repeat split. Qed.

(** C7, amended. A turn of the loop asks [is_shutdown] once, first of all.
    On [True] it does nothing more and the loop ends.  On [False] it reads
    the command cell once, under the lock, and calls [publish] once with the
    message of the value read and then [sleep]; if both return the loop goes
    on, and if either raises the exception ends the loop there, with no
    further check, since the body has no handler.  So over any sequence of
    turns the loop ends by a check that answers [True] or by an exception of
    [publish] or [sleep], and by nothing else; there is one check per turn
    started, at most one read per check, at most one message per read and
    at most one completed sleep per message.  While [publish] and [sleep]
    return, the loop ends exactly when an answer [True] was seen, with one
    read, one message and one sleep per turn taken. *)
Theorem C7_one_read_one_publish_per_tick (node : SignalBehaviorNode) (io : turn_io)
  (turns : list turn_io) (answers : list bool) :
  let cmd := current_command node in
  let before_publish :=
    [IsShutdown false; LockAcquire; LoadCommand cmd; LockRelease;
     LogInfoThrottle 2.0%float (turn_text cmd)] in
  let r := motion_loop_turn_io io node in
  let loop := motion_loop_io turns node in
  let quiet := motion_loop answers node in
  (exists rest, actions r = IsShutdown (shutdown_answer io) :: rest /\
                count is_shutdown_check rest = 0%nat) /\
  final r = node /\
  (shutdown_answer io = true -> r = mkResult [IsShutdown true] node (Normal Exit)) /\
  (shutdown_answer io = false ->
   publish_outcome io = Normal tt -> sleep_outcome io = Normal tt ->
   r = mkResult (before_publish ++ [PublishCmdVel (turn_twist cmd); RateSleep]) node
         (Normal Continue)) /\
  (forall e, shutdown_answer io = false -> publish_outcome io = Raised e ->
   r = mkResult before_publish node (Raised e)) /\
  (forall e, shutdown_answer io = false ->
   publish_outcome io = Normal tt -> sleep_outcome io = Raised e ->
   r = mkResult (before_publish ++ [PublishCmdVel (turn_twist cmd)]) node (Raised e)) /\
  value loop = loop_end turns /\
  final loop = node /\
  (value loop = Normal Exit -> existsb shutdown_answer turns = true) /\
  (forall e, value loop = Raised e ->
   exists io', In io' turns /\ shutdown_answer io' = false /\
               (publish_outcome io' = Raised e \/ sleep_outcome io' = Raised e)) /\
  count is_shutdown_check (actions loop) = turns_started turns /\
  (count is_sleep (actions loop) <= count is_publish_cmd_vel (actions loop))%nat /\
  (count is_publish_cmd_vel (actions loop) <= count is_load (actions loop))%nat /\
  (count is_load (actions loop) <= count is_shutdown_check (actions loop))%nat /\
  quiet = motion_loop_io (map quiet_turn answers) node /\
  value quiet = Normal (if existsb (fun a => a) answers then Exit else Continue) /\
  count is_load (actions quiet) = turns_taken answers /\
  count is_publish_cmd_vel (actions quiet) = turns_taken answers /\
  count is_sleep (actions quiet) = turns_taken answers /\
  count is_shutdown_check (actions quiet) =
    (turns_taken answers + if existsb (fun a => a) answers then 1 else 0)%nat.
Proof.
  intros cmd before_publish r loop quiet.
  destruct (motion_loop_io_run turns node) as (Hv & Hf & Hc & H1 & H2 & H3).
  destruct (motion_loop_counts answers node) as (Hql & Hqp & Hqs & Hqc).
  cbv zeta in Hv, Hf, Hc, H1, H2, H3, Hql, Hqp, Hqs, Hqc.
  assert (Hr : r = motion_loop_turn_io io node) by reflexivity.
  rewrite motion_loop_turn_io_run in Hr. cbv zeta in Hr. fold cmd before_publish in Hr.
  split.
  { rewrite Hr. destruct (shutdown_answer io); [exists []; split; reflexivity |].
    destruct (publish_outcome io) as [[] | e]; [| eexists; split; reflexivity].
    destruct (sleep_outcome io) as [[] | e]; eexists; split; reflexivity. }
  split.
  { rewrite Hr. destruct (shutdown_answer io); [reflexivity |].
    destruct (publish_outcome io) as [[] | e]; [| reflexivity].
    destruct (sleep_outcome io) as [[] | e]; reflexivity. }
  split; [intros A; rewrite Hr, A; reflexivity |].
  split; [intros A P S; rewrite Hr, A, P, S; reflexivity |].
  split; [intros e A P; rewrite Hr, A, P; reflexivity |].
  split; [intros e A P S; rewrite Hr, A, P, S; reflexivity |].
  split; [exact Hv |]. split; [exact Hf |].
  split; [intros H; apply loop_end_exit; rewrite <- Hv; exact H |].
  split; [intros e H; apply loop_end_raised; rewrite <- Hv; exact H |].
  split; [exact Hc |]. split; [exact H1 |]. split; [exact H2 |]. split; [exact H3 |].
  split; [apply motion_loop_quiet |].
  split; [apply motion_loop_value |].
  repeat split; assumption.
Qed.

(** ** The pose *)

(** C8. [odom_callback] stores the two coordinates and changes nothing else
    in the system and does no I/O; and two runs from one state whose events
    are the same once the odometry deliveries are taken out publish the same
    velocity messages (and the same labels). *)
Theorem C8_pose_update_frame (X : Classifier) (sys : System)
  (evs1 evs2 : list (event X))
  (H : without is_odom evs1 = without is_odom evs2) :
  cmd_vel_stream (snd (run X sys evs1)) = cmd_vel_stream (snd (run X sys evs2)) /\
  label_stream (snd (run X sys evs1)) = label_stream (snd (run X sys evs2)) /\
  (forall msg node,
     odom_callback msg node =
     mkResult []
       (mkSignalBehaviorNode (position_x msg) (position_y msg) (current_command node))
       (Normal tt)) /\
  (forall msg,
     step X sys (OdomIn msg) =
     (mkSystem (classifier_node sys)
        (mkSignalBehaviorNode (position_x msg) (position_y msg)
           (current_command (behavior_node sys)))
        (control_thread_alive sys),
      [])).
Proof.
  destruct (published_without X is_odom sys evs1 evs2) as [Hl Hc].
  - intros ev Hk. rewrite Hk. apply orb_true_r.
  - exact H.
  - repeat split; try assumption; reflexivity.
Qed.

Lemma C8_pose_update_frame_witness :
  let evs1 : list (event demo_classifier) := [OdomIn (mkOdometry 1.0%float 2.0%float); PredictedClassIn "Turn_Right";
               LoopTurn false; OdomIn (mkOdometry 1.5%float 2.0%float); LoopTurn false] in
  let evs2 : list (event demo_classifier) := [PredictedClassIn "Turn_Right"; LoopTurn false;
               OdomIn (mkOdometry (-7.0)%float 0.25%float); LoopTurn false] in
  velocity_commands (snd (run demo_classifier demo_system evs1)) =
    [(0.0%float, (-0.5)%float); (0.0%float, (-0.5)%float)] /\
  cmd_vel_stream (snd (run demo_classifier demo_system evs1)) =
  cmd_vel_stream (snd (run demo_classifier demo_system evs2)).
Proof.
  intros evs1 evs2. split; [reflexivity |].
  apply (C8_pose_update_frame demo_classifier demo_system evs1 evs2).
  reflexivity.
Defined.

(** ** The classifier node along a run *)

Section ClassifierNode.
Variable X : Classifier.
Implicit Types (sys : System) (ev : event X) (evs : list (event X)).

Lemma step_classifier_node sys ev :
  classifier_node (fst (step X sys ev)) =
  match ev with
  | ImageIn _ =>
      set_image_count (image_count (classifier_node sys) + 1) (classifier_node sys)
  | CaptureToggleIn data => set_capture_enabled data (classifier_node sys)
  | _ => classifier_node sys
  end.
Proof.
  destruct ev as [msg | data | msg | data | shutdown]; try reflexivity.
  - unfold step. cbn [fst classifier_node]. apply image_callback_final.
  - unfold step. destruct (control_thread_alive sys); reflexivity.
Qed.

Lemma run_keeps_capture evs : forall sys,
  existsb is_toggle evs = false ->
  capture_enabled (classifier_node (fst (run X sys evs))) =
  capture_enabled (classifier_node sys).
Proof.
  induction evs as [| ev evs IH]; intros sys H; [reflexivity |].
  cbn [existsb] in H. apply orb_false_elim in H as [H1 H2].
  rewrite run_cons. cbn [fst]. rewrite IH by exact H2.
  rewrite step_classifier_node. destruct ev; try reflexivity. discriminate H1.
Qed.

Lemma run_counts_frames evs : forall sys,
  image_count (classifier_node (fst (run X sys evs))) =
    image_count (classifier_node sys) + frames_received evs /\
  debug_interval (classifier_node (fst (run X sys evs))) =
    debug_interval (classifier_node sys).
Proof.
  unfold frames_received.
  induction evs as [| ev evs IH]; intros sys.
  - simpl. split; [lia | reflexivity].
  - rewrite run_cons. cbn [fst].
    destruct (IH (fst (step X sys ev))) as [Hc Hd]. rewrite Hc, Hd.
    rewrite step_classifier_node.
    destruct ev; cbn [filter is_frame length image_count debug_interval
                      set_image_count set_capture_enabled]; split; try reflexivity; lia.
Qed.

End ClassifierNode.

(** C9. The constructor sets the capture flag, and after any run in which no
    capture-toggle message is delivered the flag is still set. *)
Theorem C9_capture_enabled_by_default (X : Classifier) (names : list string)
  (shape : Z * Z) (now : float) (evs : list (event X))
  (H : existsb is_toggle evs = false) :
  capture_enabled (ImageClassifierNode_init names shape now) = true /\
  capture_enabled (classifier_node (System_init names shape now)) = true /\
  capture_enabled (classifier_node (fst (run X (System_init names shape now) evs))) = true.
Proof.
  split; [reflexivity |]. split; [reflexivity |].
  rewrite run_keeps_capture by exact H. reflexivity.
Qed.

Lemma C9_capture_enabled_by_default_witness :
  let evs : list (event demo_classifier) := [frame 3; LoopTurn false; PredictedClassIn "Give_Way";
              frame 0; OdomIn (mkOdometry 0.5%float 0.5%float); LoopTurn true] in
  existsb is_toggle evs = false /\
  capture_enabled (classifier_node (fst (run demo_classifier demo_system evs))) = true.
Proof.
  intros evs. split; [reflexivity |].
  apply (C9_capture_enabled_by_default demo_classifier demo_labels (224, 224) 0.0%float evs).
  reflexivity.
Defined.

(** ** The frame counter *)

Lemma in_handled_not_image (e : exn) (node : ImageClassifierNode)
  (n : Z) (c : string) (conf : float) :
  ~ In (LogInfo (TxtImage n c conf)) (actions (handled e node)).
Proof.
  unfold handled.
  destruct (isinstance_CvBridgeError e); [| destruct (isinstance_Exception e)];
    cbn; intros H; repeat (destruct H as [H | H]; [discriminate H |]); exact H.
Qed.

Lemma in_handled_not_publish (e : exn) (node : ImageClassifierNode) (c : string) :
  ~ In (PublishClass c) (actions (handled e node)).
Proof.
  unfold handled.
  destruct (isinstance_CvBridgeError e); [| destruct (isinstance_Exception e)];
    cbn; intros H; repeat (destruct H as [H | H]; [discriminate H |]); exact H.
Qed.

(** The sampled log line of a frame carries the counter after the increment
    and is written exactly for the classified frames on which that counter
    is a multiple of the interval. *)
Lemma image_callback_sampling (X : Classifier) (msg : ImageMsg X)
  (node : ImageClassifierNode) :
  debug_interval node <> 0 ->
  let r := image_callback X msg node in
  let number := image_count node + 1 in
  (forall n c conf, In (LogInfo (TxtImage n c conf)) (actions r) ->
     n = number /\ n mod debug_interval node = 0 /\ In (PublishClass c) (actions r)) /\
  (forall c, In (PublishClass c) (actions r) -> number mod debug_interval node = 0 ->
     exists conf, In (LogInfo (TxtImage number c conf)) (actions r)).
Proof.
  intros Hd r number. subst r number. rewrite image_callback_run. cbv zeta.
  destruct (frame_result X _ _ msg) as [[class_name confidence] | e].
  - unfold py_mod. destruct (Z.eqb_spec (debug_interval node) 0) as [E | _]; [contradiction |].
    cbn [actions].
    destruct (Z.eqb_spec ((image_count node + 1) mod debug_interval node) 0) as [E | E].
    + split.
      * intros n c conf [H | [H | []]]; [| discriminate H].
        injection H as <- <- <-. repeat split; [exact E | cbn; tauto].
      * intros c [H | [H | []]] _; [discriminate H |].
        injection H as <-. exists confidence. cbn. tauto.
    + split.
      * intros n c conf [H | []]. discriminate H.
      * intros c _ H. contradiction.
  - split.
    + intros n c conf H. exfalso. exact (in_handled_not_image _ _ _ _ _ H).
    + intros c H. exfalso. exact (in_handled_not_publish _ _ _ H).
Qed.

(** C10. Every call of [image_callback] leaves the frame counter one higher,
    whether the frame is classified, dropped on an error or left by an
    exception that is not caught; so after a run the counter is the number
    of frames delivered.  The sampled log line of the next frame carries
    that number plus one, is written only when this is a multiple of 10,
    and is written for every classified frame on which it is. *)
Theorem C10_counter_counts_received_frames (X : Classifier) (names : list string)
  (shape : Z * Z) (now : float) (evs : list (event X)) (msg : ImageMsg X) :
  let node := classifier_node (fst (run X (System_init names shape now) evs)) in
  let r := image_callback X msg node in
  let number := frames_received evs + 1 in
  (forall any_node any_msg,
     image_count (final (image_callback X any_msg any_node)) = image_count any_node + 1) /\
  image_count node = frames_received evs /\
  debug_interval node = 10 /\
  image_count (final r) = number /\
  (forall n c conf, In (LogInfo (TxtImage n c conf)) (actions r) ->
     n = number /\ n mod 10 = 0 /\ In (PublishClass c) (actions r)) /\
  (forall c, In (PublishClass c) (actions r) -> number mod 10 = 0 ->
     exists conf, In (LogInfo (TxtImage number c conf)) (actions r)).
Proof.
  intros node r number.
  destruct (run_counts_frames X evs (System_init names shape now)) as [Hc Hd].
  cbn [System_init classifier_node ImageClassifierNode_init image_count debug_interval]
    in Hc, Hd.
  fold node in Hc, Hd. rewrite Z.add_0_l in Hc.
  assert (Hn : debug_interval node <> 0) by (rewrite Hd; discriminate).
  pose proof (image_callback_sampling X msg node Hn) as Hs. cbv zeta in Hs.
  rewrite Hc, Hd in Hs. fold r number in Hs.
  split; [intros any_node any_msg; rewrite image_callback_final; reflexivity |].
  split; [exact Hc |]. split; [exact Hd |].
  split; [unfold r; rewrite image_callback_final; cbn; rewrite Hc; reflexivity |].
  exact Hs.
Qed.

Lemma C10_counter_counts_received_frames_witness :
  let evs : list (event demo_classifier) := map frame [0; 1; 0; 5; 1; 1; 0; 4; 0]%nat in
  let node := classifier_node (fst (run demo_classifier demo_system evs)) in
  label_stream (snd (run demo_classifier demo_system evs)) = ["Turn_Right"; "Turn_Left"] /\
  actions (image_callback demo_classifier 6%nat node) =
    [LogInfo (TxtImage 10 "Nothing" 1.0%float); PublishClass "Nothing"] /\
  image_count node = 9.
Proof.
  intros evs node. split; [vm_compute; reflexivity |]. split; [vm_compute; reflexivity |].
  pose proof (C10_counter_counts_received_frames demo_classifier demo_labels (224, 224)
                0.0%float evs 6%nat) as H.
  cbv zeta in H. destruct H as (_ & H & _).
  transitivity (frames_received evs); [exact H | reflexivity].
Defined.

(** ** The label file *)

Lemma py_rstrip_all_space (t : string) :
  all_space t = true -> py_rstrip t = "".
Proof.
  unfold all_space. induction t as [| c t IH]; [reflexivity |].
  cbn [list_ascii_of_string forallb py_rstrip]. intros H.
  apply andb_prop in H as [Hc Ht]. rewrite (IH Ht), Hc. reflexivity.
Qed.

Lemma py_rstrip_app_space (b t : string) :
  all_space t = true -> py_rstrip (b ++ t)%string = py_rstrip b.
Proof.
  intros H. induction b as [| c b IH].
  - cbn. apply py_rstrip_all_space, H.
  - cbn [append py_rstrip]. rewrite IH. reflexivity.
Qed.

Lemma py_rstrip_app_kept (a b : string) :
  py_rstrip b <> "" -> py_rstrip (a ++ b)%string = (a ++ py_rstrip b)%string.
Proof.
  intros H. induction a as [| c a IH]; [reflexivity |].
  cbn [append py_rstrip]. rewrite IH.
  destruct (a ++ py_rstrip b)%string eqn:E; [| reflexivity].
  destruct a; [cbn in E; contradiction | discriminate E].
Qed.

Lemma py_rstrip_idempotent (s : string) : py_rstrip (py_rstrip s) = py_rstrip s.
Proof.
  induction s as [| c s IH]; [reflexivity |].
  cbn [py_rstrip]. destruct (py_rstrip s) as [| d kept] eqn:E.
  - destruct (py_isspace c) eqn:Hc; [reflexivity |]. cbn. rewrite Hc. reflexivity.
  - cbn [py_rstrip] in *. rewrite IH. reflexivity.
Qed.

(** A string that [rstrip] leaves alone has only such suffixes. *)
Lemma py_rstrip_fixed_suffix (a b : string) :
  py_rstrip (a ++ b)%string = (a ++ b)%string -> py_rstrip b = b.
Proof.
  induction a as [| c a IH]; [intros H; exact H |].
  cbn [append py_rstrip]. destruct (py_rstrip (a ++ b)%string) as [| d kept] eqn:E.
  - destruct (py_isspace c); intros H; [discriminate H |].
    injection H as H. symmetry in H. destruct a; [| discriminate H].
    cbn in H. subst b. reflexivity.
  - intros H. injection H as H. apply IH. exact H.
Qed.

Lemma py_rstrip_fixed_after_space (b : string) :
  py_rstrip (String " " b) = String " " b -> b <> "" /\ py_rstrip b = b.
Proof.
  cbn [py_rstrip]. destruct (py_rstrip b) as [| d kept] eqn:E.
  - cbn. intros H. discriminate H.
  - intros H. injection H as H. subst b. split; [discriminate | reflexivity].
Qed.

Lemma py_lstrip_kept (c : ascii) (s : string) :
  py_isspace c = false -> py_lstrip (String c s) = String c s.
Proof. intros H. cbn. rewrite H. reflexivity. Qed.

Lemma py_partition_space_spec (s before after : string) :
  py_partition_space s = Some (before, after) ->
  s = (before ++ String " " after)%string.
Proof.
  revert before. induction s as [| c s IH]; intros before; [discriminate |].
  cbn [py_partition_space]. destruct (Ascii.eqb_spec c " "%char) as [-> | _].
  - intros H. injection H as <- <-. reflexivity.
  - destruct (py_partition_space s) as [[b a] |]; [| discriminate].
    intros H. injection H as <- <-. cbn. rewrite (IH b eq_refl). reflexivity.
Qed.

Lemma py_partition_space_app (index rest : string) :
  no_space index = true ->
  py_partition_space (index ++ String " " rest)%string = Some (index, rest).
Proof.
  unfold no_space. induction index as [| c index IH]; [reflexivity |].
  cbn [list_ascii_of_string forallb append py_partition_space]. intros H.
  apply andb_prop in H as [Hc Hi]. rewrite (IH Hi).
  destruct (Ascii.eqb_spec c " "%char) as [-> | _]; [discriminate Hc | reflexivity].
Qed.

(** The element of the comprehension for one line. *)
Lemma label_of_line (line : string) :
  py_index (py_split_space_once (py_strip line)) 1 =
  match py_partition_space (py_strip line) with
  | Some (_, name) => Normal name
  | None => Raised IndexError
  end.
Proof.
  unfold py_split_space_once.
  destruct (py_partition_space (py_strip line)) as [[before after] |]; reflexivity.
Qed.

Lemma py_strip_label_line (index name ending : string) :
  entry_ok (index, name, ending) ->
  py_strip (label_line index name ending) = (index ++ String " " name)%string.
Proof.
  intros (Hi & Hn & Hne & Hr & He). unfold py_strip, label_line.
  destruct index as [| c index]; [contradiction |].
  assert (Hc : py_isspace c = false).
  { unfold no_space in Hn. cbn in Hn. apply andb_prop in Hn as [Hc _].
    destruct (py_isspace c); [discriminate Hc | reflexivity]. }
  cbn [append]. rewrite (py_lstrip_kept c _ Hc).
  change (String c (index ++ String " " (name ++ ending)))%string
    with (String c index ++ String " " (name ++ ending))%string.
  assert (Hk : py_rstrip (name ++ ending)%string = name)
    by (rewrite py_rstrip_app_space by exact He; exact Hr).
  change (String " " (name ++ ending))%string with (" " ++ (name ++ ending))%string.
  rewrite py_rstrip_app_kept.
  - rewrite py_rstrip_app_kept by (rewrite Hk; exact Hne). rewrite Hk. reflexivity.
  - rewrite py_rstrip_app_kept by (rewrite Hk; exact Hne). discriminate.
Qed.

(** X1. On a file of well-formed lines (index, one space, name, line
    ending) [load_labels] returns the names, in the order of the lines;
    a name may itself contain spaces. *)
Theorem X1_load_labels_reads_names (entries : list (string * string * string))
  (H : Forall entry_ok entries) :
  load_labels (map entry_line entries) = Normal (map entry_name entries).
Proof.
  induction H as [| [[index name] ending] entries Hok _ IH]; [reflexivity |].
  cbn [map load_labels entry_line entry_name]. rewrite IH, label_of_line.
  rewrite (py_strip_label_line index name ending Hok).
  destruct Hok as (_ & Hn & _).
  rewrite (py_partition_space_app index name Hn). reflexivity.
Qed.

Lemma X1_load_labels_reads_names_witness :
  load_labels
    (map entry_line [("0", "Stop", newline); ("1", "Give Way", newline); ("2", "Nothing", "")]) =
  Normal ["Stop"; "Give Way"; "Nothing"].
Proof.
  apply (X1_load_labels_reads_names
           [("0", "Stop", newline); ("1", "Give Way", newline); ("2", "Nothing", "")]).
  repeat constructor; discriminate.
Defined.

Lemma load_labels_closed_form (lines : list string) :
  load_labels lines =
  if forallb (fun line => has_space (py_strip line)) lines
  then Normal (map (fun line =>
                      match py_partition_space (py_strip line) with
                      | Some (_, name) => name
                      | None => ""
                      end) lines)
  else Raised IndexError.
Proof.
  induction lines as [| line later IH]; [reflexivity |].
  cbn [load_labels forallb map]. rewrite label_of_line, IH. unfold has_space.
  destruct (py_partition_space (py_strip line)) as [[before after] |]; [| reflexivity].
  cbn [andb]. destruct (forallb _ later); reflexivity.
Qed.

Lemma has_space_blank (line : string) :
  all_space line = true -> has_space (py_strip line) = false.
Proof.
  intros H. unfold py_strip.
  assert (E : py_lstrip line = "").
  { unfold all_space in H. induction line as [| c line IH]; [reflexivity |].
    cbn in H. apply andb_prop in H as [Hc Hl]. cbn. rewrite Hc. apply IH, Hl. }
  rewrite E. reflexivity.
Qed.

(** X2. [load_labels] raises in two cases and no other: when opening or
    reading the file raises, and then that exception goes through
    unchanged; and when some line, stripped, has no space, and then what it
    raises is the IndexError of the subscript [1].  It returns a list
    otherwise.  In particular one blank line anywhere in the file (also a
    whitespace-only last line) makes the whole call raise. *)
Theorem X2_load_labels_failure (lines : list string) :
  (forall e, load_labels_from (Raised e) = Raised e) /\
  (forallb (fun line => has_space (py_strip line)) lines = false <->
   load_labels_from (Normal lines) = Raised IndexError) /\
  (forallb (fun line => has_space (py_strip line)) lines = true <->
   exists names, load_labels_from (Normal lines) = Normal names) /\
  (forall e, load_labels_from (Normal lines) = Raised e -> e = IndexError) /\
  (forall line, In line lines -> all_space line = true ->
   load_labels_from (Normal lines) = Raised IndexError) /\
  (forall read e, load_labels_from read = Raised e ->
   read = Raised e \/
   exists read_lines,
     read = Normal read_lines /\ e = IndexError /\
     forallb (fun line => has_space (py_strip line)) read_lines = false).
Proof.
  split; [reflexivity |]. cbn [load_labels_from].
  assert (Hlast : forall read e, load_labels_from read = Raised e ->
            read = Raised e \/
            exists read_lines,
              read = Normal read_lines /\ e = IndexError /\
              forallb (fun line => has_space (py_strip line)) read_lines = false).
  { intros [read_lines | e'] e; cbn [load_labels_from].
    - rewrite load_labels_closed_form.
      destruct (forallb _ read_lines) eqn:E; [discriminate |].
      intros H. injection H as <-. right. exists read_lines. repeat split. exact E.
    - intros H. left. exact H. }
  rewrite load_labels_closed_form.
  destruct (forallb (fun line => has_space (py_strip line)) lines) eqn:E.
  - repeat split; try discriminate; try exact Hlast.
    + intros _. eexists. reflexivity.
    + intros line Hin Hb. rewrite forallb_forall in E.
      specialize (E line Hin). rewrite (has_space_blank line Hb) in E. discriminate E.
  - repeat split; try discriminate; try reflexivity; try exact Hlast.
    + intros [names H]. discriminate H.
    + intros e H. injection H as <-. reflexivity.
Qed.

(** X3. When [load_labels] returns, it returns one name per line, and no
    name is empty or ends in whitespace. *)
Theorem X3_load_labels_names (lines names : list string)
  (H : load_labels lines = Normal names) :
  length names = length lines /\
  Forall (fun name => name <> "" /\ py_rstrip name = name) names.
Proof.
  revert names H. induction lines as [| line later IH]; intros names H.
  - injection H as <-. split; [reflexivity | constructor].
  - cbn [load_labels] in H. rewrite label_of_line in H.
    destruct (py_partition_space (py_strip line)) as [[before name] |] eqn:E;
      [| discriminate H].
    destruct (load_labels later) as [rest | e]; [| discriminate H].
    injection H as <-. destruct (IH rest eq_refl) as [Hl Hf].
    split; [cbn; rewrite Hl; reflexivity |].
    constructor; [| exact Hf].
    apply py_partition_space_spec in E.
    apply py_rstrip_fixed_after_space, (py_rstrip_fixed_suffix before).
    rewrite <- E. apply py_rstrip_idempotent.
Qed.

Lemma X3_load_labels_names_witness :
  length demo_labels = length demo_lines /\
  Forall (fun name => name <> "" /\ py_rstrip name = name) demo_labels.
Proof.
  apply (X3_load_labels_names demo_lines demo_labels). reflexivity.
Defined.

(** ** Labels published *)

Lemma py_index_In {A} (l : list A) (i : Z) (a : A) :
  py_index l i = Normal a -> In a l.
Proof.
  unfold py_index. destruct (_ && _); [| discriminate].
  destruct (nth_error l _) as [b |] eqn:E; [| discriminate].
  intros H. injection H as <-. eapply nth_error_In, E.
Qed.

Lemma py_index_out_of_range {A} (l : list A) (i : Z) :
  i < - Z.of_nat (length l) \/ Z.of_nat (length l) <= i ->
  py_index l i = Raised IndexError.
Proof.
  intros H. unfold py_index, IndexError.
  pose proof (Zle_0_nat (length l)) as Hn.
  destruct H as [H | H].
  - replace (i <? 0) with true by (symmetry; apply Z.ltb_lt; lia).
    replace (0 <=? i + Z.of_nat (length l)) with false by (symmetry; apply Z.leb_gt; lia).
    reflexivity.
  - replace (i <? 0) with false by (symmetry; apply Z.ltb_ge; lia).
    replace (i <? Z.of_nat (length l)) with false by (symmetry; apply Z.ltb_ge; lia).
    rewrite andb_false_r. reflexivity.
Qed.

Lemma frame_result_In (X : Classifier) (names : list string) (shape : Z * Z)
  (msg : ImageMsg X) (class_name : string) (confidence : float) :
  frame_result X names shape msg = Normal (class_name, confidence) ->
  In class_name names.
Proof.
  unfold frame_result.
  destruct (imgmsg_to_cv2 X msg) as [cv_image |]; [| discriminate].
  destruct (resize X cv_image shape) as [resized |]; [| discriminate].
  destruct (to_batch X resized) as [img |]; [| discriminate].
  destruct (predict X img) as [predictions |]; [| discriminate].
  destruct (argmax X predictions) as [class_index |]; [| discriminate].
  destruct (py_index names class_index) as [name |] eqn:E; [| discriminate].
  destruct (item X predictions class_index); [| discriminate].
  intros H. injection H as <- _. eapply py_index_In, E.
Qed.

Section Published.
Variable X : Classifier.
Implicit Types (sys : System) (ev : event X) (evs : list (event X)).

Lemma label_stream_handled (e : exn) (node : ImageClassifierNode) :
  label_stream (actions (handled e node) ++ escaped (value (handled e node))) = [].
Proof. destruct e; reflexivity. Qed.

(** What a step publishes on [/predicted_class]. *)
Lemma step_label_stream sys ev :
  label_stream (snd (step X sys ev)) =
  match ev with
  | ImageIn msg =>
      match frame_result X (labels (classifier_node sys))
              (input_shape (classifier_node sys)) msg with
      | Normal (class_name, _) =>
          if debug_interval (classifier_node sys) =? 0 then [] else [class_name]
      | Raised _ => []
      end
  | _ => []
  end.
Proof.
  destruct ev as [msg | data | msg | data | shutdown]; try reflexivity.
  - unfold step. cbn [snd]. rewrite image_callback_run. cbv zeta.
    destruct (frame_result X _ _ msg) as [[class_name confidence] | e];
      [| apply label_stream_handled].
    unfold py_mod. destruct (debug_interval (classifier_node sys) =? 0);
      [apply label_stream_handled |].
    cbn [actions value escaped]. rewrite app_nil_r, label_stream_app.
    destruct (_ =? 0); reflexivity.
  - unfold step. destruct (control_thread_alive sys); [| reflexivity].
    destruct shutdown; [reflexivity |]. rewrite motion_loop_turn_running. reflexivity.
Qed.

(** No step changes the label names, the input shape or the debug
    interval. *)
Lemma step_settings sys ev :
  labels (classifier_node (fst (step X sys ev))) = labels (classifier_node sys) /\
  input_shape (classifier_node (fst (step X sys ev))) = input_shape (classifier_node sys) /\
  debug_interval (classifier_node (fst (step X sys ev))) = debug_interval (classifier_node sys).
Proof. rewrite step_classifier_node. destruct ev; repeat split. Qed.

(** X4. Every label published on [/predicted_class], in any run from any
    state, is one of the names in the node's label list. *)
Theorem X4_published_labels_are_loaded sys evs :
  Forall (fun label => In label (labels (classifier_node sys)))
    (label_stream (snd (run X sys evs))).
Proof.
  revert sys. induction evs as [| ev evs IH]; intros sys; [constructor |].
  rewrite run_cons. cbn [snd]. rewrite label_stream_app. apply Forall_app. split.
  - rewrite step_label_stream. destruct ev as [msg | | | |]; try constructor.
    destruct (frame_result X _ _ msg) as [[class_name confidence] |] eqn:E;
      [| constructor].
    destruct (_ =? 0); constructor; [| constructor].
    eapply frame_result_In, E.
  - destruct (step_settings sys ev) as (Hl & _). rewrite <- Hl. apply IH.
Qed.


(** X6. When the class index the model gives lies outside the label list
    (the label file has fewer names than the model has classes), the frame
    is dropped: the IndexError is logged by the second clause, no label is
    published and the counter has advanced. *)
Theorem X6_class_index_out_of_range sys (msg : ImageMsg X)
  (cv_image resized : CvImage X) (img : Batch X) (predictions : Predictions X)
  (class_index : Z)
  (H1 : imgmsg_to_cv2 X msg = Normal cv_image)
  (H2 : resize X cv_image (input_shape (classifier_node sys)) = Normal resized)
  (H3 : to_batch X resized = Normal img)
  (H4 : predict X img = Normal predictions)
  (H5 : argmax X predictions = Normal class_index)
  (H6 : class_index < - Z.of_nat (length (labels (classifier_node sys))) \/
        Z.of_nat (length (labels (classifier_node sys))) <= class_index) :
  step X sys (ImageIn msg) =
  (mkSystem (set_image_count (image_count (classifier_node sys) + 1) (classifier_node sys))
     (behavior_node sys) (control_thread_alive sys),
   [LogErr (TxtProcessingError IndexError)]).
Proof.
  unfold step. rewrite image_callback_run. cbv zeta.
  unfold frame_result. rewrite H1, H2, H3, H4, H5.
  rewrite (py_index_out_of_range _ _ H6). reflexivity.
Qed.

(** X7. The clause that handles a failed frame is chosen by the class of
    the exception, not by the call that raised it: a [CvBridgeError] is
    logged by the first clause, any other instance of [Exception] by the
    second, and an exception outside [Exception] is not logged at all and
    leaves the callback.  In each case nothing is published and the counter
    has advanced. *)
Theorem X7_exception_classes sys (msg : ImageMsg X) (e : exn)
  (H : decode_fails X msg e \/ classify_fails X (classifier_node sys) msg e) :
  step X sys (ImageIn msg) =
  (mkSystem (set_image_count (image_count (classifier_node sys) + 1) (classifier_node sys))
     (behavior_node sys) (control_thread_alive sys),
   match e with
   | CvBridgeError _ => [LogErr (TxtCvBridgeError e)]
   | PyException _ _ => [LogErr (TxtProcessingError e)]
   | PyBaseException _ => [Uncaught e]
   end).
Proof.
  assert (Hf : frame_result X (labels (classifier_node sys))
                 (input_shape (classifier_node sys)) msg = Raised e).
  { destruct H; [apply decode_fails_frame_result | apply classify_fails_frame_result];
      assumption. }
  unfold step. rewrite image_callback_run, Hf. destruct e; reflexivity.
Qed.

(** ** The command cell and the messages *)

Lemma last_cons {A} (a d : A) (l : list A) : last (a :: l) d = last l a.
Proof.
  revert a d. induction l as [| b l IH]; intros a d; [reflexivity |].
  change (last (a :: b :: l) d) with (last (b :: l) d).
  rewrite (IH b d), (IH b a). reflexivity.
Qed.

Lemma run_last_label evs : forall sys,
  current_command (behavior_node (fst (run X sys evs))) =
  last (label_updates evs) (current_command (behavior_node sys)).
Proof.
  induction evs as [| ev evs IH]; intros sys; [reflexivity |].
  rewrite run_cons. cbn [fst]. rewrite IH.
  destruct ev as [msg | data | msg | data | shutdown];
    try (rewrite step_keeps_command by reflexivity; reflexivity).
  cbn [label_updates]. rewrite last_cons. reflexivity.
Qed.

(** X8. The command cell holds the label delivered last (the initial value
    if none was): labels delivered between two turns of the loop overwrite
    one another, and the next turn of the running loop publishes the message
    of the last one only. *)
Theorem X8_latest_label_wins sys evs
  (H : control_thread_alive (fst (run X sys evs)) = true) :
  let latest := last (label_updates evs) (current_command (behavior_node sys)) in
  current_command (behavior_node (fst (run X sys evs))) = latest /\
  cmd_vel_stream (snd (step X (fst (run X sys evs)) (LoopTurn false))) = [turn_twist latest].
Proof.
  intros latest. split; [apply run_last_label |].
  rewrite step_cmd_vel, H, run_last_label. reflexivity.
Qed.

Lemma turn_twist_range (cmd : string) :
  In (turn_twist cmd) [twist_halt; twist_left; twist_right; twist_forward].
Proof.
  unfold turn_twist.
  destruct (py_in cmd ["Stop"; "Give_Way"]);
    [| destruct (String.eqb cmd "Turn_Left");
       [| destruct (String.eqb cmd "Turn_Right");
          [| destruct (String.eqb cmd "Nothing") ]]];
    cbn; tauto.
Qed.

(** X9. Every message published on [/cmd_vel], in any run from any state
    and whatever strings are delivered as labels, is one of four: all zero,
    [angular.z = 0.5], [angular.z = -0.5], or [linear.x = 0.2], every other
    component being zero.  So the loop never commands a reverse or a
    sideways motion, and never a translation together with a rotation. *)
Theorem X9_four_messages sys evs :
  Forall (fun twist => In twist [twist_halt; twist_left; twist_right; twist_forward])
    (cmd_vel_stream (snd (run X sys evs))).
Proof.
  revert sys. induction evs as [| ev evs IH]; intros sys; [constructor |].
  rewrite run_cons. cbn [snd]. rewrite cmd_vel_stream_app. apply Forall_app.
  split; [| apply IH].
  rewrite step_cmd_vel. destruct ev as [| | | | []]; try constructor.
  destruct (control_thread_alive sys); constructor; [apply turn_twist_range | constructor].
Qed.

Lemma step_thread_alive sys ev :
  control_thread_alive (fst (step X sys ev)) =
  control_thread_alive sys && negb (is_shutdown_turn ev).
Proof.
  pose proof (run_thread_alive X [ev] sys) as H. rewrite run_cons in H.
  cbn [fst run existsb] in H. rewrite orb_false_r in H. exact H.
Qed.

Lemma run_finished_silent evs : forall sys,
  control_thread_alive sys = false ->
  cmd_vel_stream (snd (run X sys evs)) = [].
Proof.
  induction evs as [| ev evs IH]; intros sys H; [reflexivity |].
  rewrite run_cons. cbn [snd]. rewrite cmd_vel_stream_app, step_cmd_vel.
  rewrite IH.
  - rewrite H. destruct ev as [| | | | []]; reflexivity.
  - rewrite step_thread_alive, H. reflexivity.
Qed.

(** X10. The turn of the loop that sees the shutdown publishes nothing, and
    nothing is published on [/cmd_vel] after it: the messages of a run are
    those published before that turn.  In particular the loop sends no stop
    message when it ends, so the last message sent stays the one of the
    last turn taken. *)
Theorem X10_no_message_after_shutdown sys (before after : list (event X)) :
  cmd_vel_stream (snd (run X sys (before ++ LoopTurn true :: after))) =
  cmd_vel_stream (snd (run X sys before)).
Proof.
  rewrite run_app. cbn [snd]. rewrite cmd_vel_stream_app, run_cons. cbn [snd].
  rewrite cmd_vel_stream_app, step_cmd_vel.
  rewrite (run_finished_silent after (fst (step X (fst (run X sys before)) (LoopTurn true)))).
  - cbn [app]. rewrite ?app_nil_r. reflexivity.
  - rewrite step_thread_alive. cbn. apply andb_false_r.
Qed.

(** ** The lock along a run *)

Lemma lock_scan_app (a b : list action) : forall held held',
  lock_scan held a = Some held' ->
  lock_scan held (a ++ b) = lock_scan held' b.
Proof.
  induction a as [| x a IH]; intros held held' H.
  - injection H as <-. reflexivity.
  - destruct x; cbn [app lock_scan] in *; try (apply IH; exact H);
      destruct held; try discriminate H; apply IH; exact H.
Qed.

Lemma lock_scan_handled (e : exn) (node : ImageClassifierNode) :
  lock_scan false (actions (handled e node) ++ escaped (value (handled e node))) = Some false.
Proof. destruct e; reflexivity. Qed.

Lemma step_lock_scan sys ev : lock_scan false (snd (step X sys ev)) = Some false.
Proof.
  destruct ev as [msg | data | msg | data | shutdown]; try reflexivity.
  - unfold step. cbn [snd]. rewrite image_callback_run. cbv zeta.
    destruct (frame_result X _ _ msg) as [[class_name confidence] | e];
      [| apply lock_scan_handled].
    destruct (py_mod _ _) as [remainder | e]; [| apply lock_scan_handled].
    cbn [actions value escaped]. destruct (remainder =? 0); reflexivity.
  - unfold step. destruct (control_thread_alive sys); [| reflexivity].
    destruct shutdown; [reflexivity |]. rewrite motion_loop_turn_running. reflexivity.
Qed.

(** X11. Along any run the command lock is used in strict alternation:
    it is never acquired while held (it is not re-entrant) nor released
    while free, and it is free after every callback and every turn of the
    loop. *)
Theorem X11_lock_alternates sys evs :
  lock_scan false (snd (run X sys evs)) = Some false.
Proof.
  revert sys. induction evs as [| ev evs IH]; intros sys; [reflexivity |].
  rewrite run_cons. cbn [snd].
  rewrite (lock_scan_app _ _ false false (step_lock_scan sys ev)). apply IH.
Qed.

End Published.


Lemma X6_class_index_out_of_range_witness :
  step demo_classifier demo_system (frame 9) =
  (mkSystem (set_image_count 1 (classifier_node demo_system)) SignalBehaviorNode_init true,
   [LogErr (TxtProcessingError IndexError)]).
Proof.
  apply (X6_class_index_out_of_range demo_classifier demo_system 9%nat 9%nat 9%nat 9%nat 7 7);
    try reflexivity.
  right. cbn. lia.
Defined.

Lemma X7_exception_classes_witness :
  step demo_classifier demo_system (frame 0) =
  (mkSystem (set_image_count 1 (classifier_node demo_system)) SignalBehaviorNode_init true,
   [LogErr (TxtCvBridgeError (CvBridgeError "unsupported encoding"))]).
Proof.
  apply (X7_exception_classes demo_classifier demo_system 0%nat
           (CvBridgeError "unsupported encoding")).
  left. reflexivity.
Defined.

Lemma X8_latest_label_wins_witness :
  let evs : list (event demo_classifier) :=
    [LoopTurn false; PredictedClassIn "Stop"; PredictedClassIn "Turn_Left";
     OdomIn (mkOdometry 1.0%float 1.0%float); PredictedClassIn "Turn_Right"] in
  cmd_vel_stream
    (snd (step demo_classifier (fst (run demo_classifier demo_system evs)) (LoopTurn false))) =
  [twist_right].
Proof.
  intros evs.
  apply (X8_latest_label_wins demo_classifier demo_system evs). reflexivity.
Defined.

(** ** The loop on its own *)

